(** * PASE console: grid dispatch and dashboard data, verified against the source

    The development embeds
    - [optimize_grid], the grid optimisation algorithm of README.md, and
    - the data handling of the React dashboard (pages/Index.tsx and
      components/dashboard/DashboardHeader.tsx): the simulation request,
      the mock simulation data, the LIVE record buffer and the alert groups.

    Numbers.  Python floats and JavaScript numbers are modelled as real
    numbers: the arithmetic is exact, the rounding of IEEE doubles is outside
    the model.  Hour indices, list positions and epoch milliseconds are
    integers.

    Effects.  [Math.random()] and [Date.now()] read the outside world; they
    are modelled by an environment of draws and clock readings consumed
    through a small state monad that counts the calls made so far. *)

From Stdlib Require Import Reals Lra Lia ZArith List Ascii String Bool Arith.
Import ListNotations.

Local Open Scope string_scope.
Local Open Scope R_scope.

(** ** README.md: the grid optimisation algorithm *)

Module Optimizer.

(** A Python dict with string keys, in insertion order. *)
Definition Dict := list (string * R).

Fixpoint dict_get (k : string) (d : Dict) : option R :=
  match d with
  | [] => None
  | (k', v) :: d' => if String.eqb k k' then Some v else dict_get k d'
  end.

Definition dict_keys (d : Dict) : list string := map fst d.

(** [d.get(k, 0)]: a flow that the dict does not mention is zero. *)
Definition flow (k : string) (d : Dict) : R :=
  match dict_get k d with
  | Some v => v
  | None => 0
  end.

(** Python's [min(a, b, c)], scanning left to right. *)
Definition min3 (a b c : R) : R := Rmin (Rmin a b) c.

Section Globals.

(** The snippet reads three names that it does not define. *)
Variables battery_capacity battery_charge_capacity battery_discharge_capacity : R.

(** [battery_soc] is the state of charge as a fraction of the capacity. *)
Definition optimize_grid (supply demand battery_soc : R) : Dict :=
  let surplus := supply - demand in
  if Rlt_dec 0 surplus then
    let charge_amount :=
      min3 surplus battery_charge_capacity
           ((0.8 - battery_soc) * battery_capacity) in
    let export_amount := surplus - charge_amount in
    [("battery_charge", charge_amount); ("grid_export", export_amount)]
  else
    let deficit := Rabs surplus in
    let discharge_amount :=
      min3 deficit battery_discharge_capacity
           ((battery_soc - 0.2) * battery_capacity) in
    let import_amount := deficit - discharge_amount in
    [("battery_discharge", discharge_amount); ("grid_import", import_amount)].

(** The battery power the call applies, whichever the direction. *)
Definition applied_mw (supply demand battery_soc : R) : R :=
  let d := optimize_grid supply demand battery_soc in
  if Rlt_dec 0 (supply - demand)
  then flow "battery_charge" d
  else flow "battery_discharge" d.

End Globals.

(** The flows of a dispatch under the field names of a timestep record. *)
Definition to_battery_mw (d : Dict) : R := flow "battery_charge" d.
Definition from_battery_mw (d : Dict) : R := flow "battery_discharge" d.
Definition to_grid_mw (d : Dict) : R := flow "grid_export" d.
Definition from_grid_mw (d : Dict) : R := flow "grid_import" d.

End Optimizer.

(** The formula of the battery contract, in the words of the specification:
    the least of the desired power, the power limit and the headroom per
    hour, floored at zero. *)
Definition spec_applied_mw (desired_mw max_power_mw headroom_mwh dt_hours : R) : R :=
  Rmax 0 (Optimizer.min3 desired_mw max_power_mw (headroom_mwh / dt_hours)).

(** ** JavaScript values *)

Module Js.

(** The values the dashboard stores in its objects.  [Iso ms] is the string
    [new Date(ms).toISOString()], kept by its instant: the rendering is one
    to one on instants. *)
#[warnings="-register-all"]
Inductive Value : Type :=
| Num (x : R)
| Str (s : string)
| Iso (ms : Z)
| Bool (b : bool)
| Obj (fields : list (string * Value)).

(** An object literal: its properties in the order they are written. *)
Definition Object := list (string * Value).

Fixpoint get (k : string) (o : Object) : option Value :=
  match o with
  | [] => None
  | (k', v) :: o' => if String.eqb k k' then Some v else get k o'
  end.

Definition keys (o : Object) : list string := map fst o.

(** [o.k] read as a number. *)
Definition num (k : string) (o : Object) : R :=
  match get k o with
  | Some (Num x) => x
  | _ => 0
  end.

(** [Array.prototype.slice(start)]: a negative [start] counts from the end,
    and either way the position is clamped to the array. *)
Definition slice {A : Type} (start : Z) (l : list A) : list A :=
  let len := Z.of_nat (List.length l) in
  let k := if (start <? 0)%Z then Z.max (len + start) 0 else Z.min start len in
  skipn (Z.to_nat k) l.

(** [Array.prototype.includes] on strings. *)
Definition includes (l : list string) (x : string) : bool :=
  existsb (String.eqb x) l.

(** [Array.prototype.slice(start, end)]: both positions are taken relative
    to the end when negative and clamped to the array; nothing is copied
    when the end does not lie after the start. *)
Definition slice_range {A : Type} (start stop : Z) (l : list A) : list A :=
  let len := Z.of_nat (List.length l) in
  let k := if (start <? 0)%Z then Z.max (len + start) 0 else Z.min start len in
  let final := if (stop <? 0)%Z then Z.max (len + stop) 0 else Z.min stop len in
  firstn (Z.to_nat (Z.max (final - k) 0)) (skipn (Z.to_nat k) l).

(** [String.prototype.replace] with a one-character pattern: the first
    occurrence is replaced, the others stay. *)
Fixpoint replace_char (pattern replacement : Ascii.ascii) (s : string) : string :=
  match s with
  | EmptyString => EmptyString
  | String c s' =>
      if Ascii.eqb c pattern then String replacement s'
      else String c (replace_char pattern replacement s')
  end.

End Js.

(** ** The outside world: Math.random() and Date.now() *)

Module Effects.

(** What the calls will answer: the k-th draw and the k-th clock reading. *)
Record World : Type := {
  random : nat -> R;
  now : nat -> Z
}.

(** How many calls have been made so far. *)
Record Calls : Type := {
  random_calls : nat;
  now_calls : nat
}.

Definition M (A : Type) : Type := World -> Calls -> A * Calls.

Definition ret {A : Type} (x : A) : M A := fun _ c => (x, c).

Definition bind {A B : Type} (m : M A) (f : A -> M B) : M B :=
  fun w c => let (x, c') := m w c in f x w c'.

Definition Math_random : M R :=
  fun w c => (random w (random_calls c),
              {| random_calls := S (random_calls c); now_calls := now_calls c |}).

Definition Date_now : M Z :=
  fun w c => (now w (now_calls c),
              {| random_calls := random_calls c; now_calls := S (now_calls c) |}).

(** [Array.from({ length: n }, (_, i) => f i)]: the callback runs for the
    indices i, i+1, ... in order. *)
Fixpoint Array_from_aux {A : Type} (f : nat -> M A) (i n : nat) : M (list A) :=
  match n with
  | O => ret []
  | S n' =>
      bind (f i) (fun x =>
      bind (Array_from_aux f (S i) n') (fun xs =>
      ret (x :: xs)))
  end.

Definition Array_from {A : Type} (n : nat) (f : nat -> M A) : M (list A) :=
  Array_from_aux f 0 n.

(** Every draw lies in [0, 1), as Math.random() promises. *)
Definition fair (w : World) : Prop := forall k, 0 <= random w k < 1.

(** Two worlds that answer alike to the next [n] draws and [m] readings. *)
Definition agree (w1 w2 : World) (c : Calls) (n m : nat) : Prop :=
  (forall k, (random_calls c <= k < random_calls c + n)%nat ->
             random w1 k = random w2 k) /\
  (forall k, (now_calls c <= k < now_calls c + m)%nat ->
             now w1 k = now w2 k).

Definition start : Calls := {| random_calls := 0; now_calls := 0 |}.

(** A world where every draw is 0 and the clock stands at the epoch. *)
Definition calm : World := {| random := fun _ => 0; now := fun _ => 0%Z |}.

(** A world whose draws change after the first 120. *)
Definition shifting : World :=
  {| random := fun k => if (k <? 120)%nat then 0 else 1 / 2;
     now := fun _ => 0%Z |}.

End Effects.

Notation "x <- m ;; k" := (Effects.bind m (fun x => k))
  (at level 61, m at next level, right associativity).

(** ** pages/Index.tsx: the simulation request *)

Module Index.

Import Js Effects.

Inductive Mode : Type := LIVE | MANUAL | CUSTOM.

Definition Mode_eqb (a b : Mode) : bool :=
  match a, b with
  | LIVE, LIVE | MANUAL, MANUAL | CUSTOM, CUSTOM => true
  | _, _ => false
  end.

Record Faults : Type := {
  turbineFailure : bool;
  multipleTurbineFailure : bool;
  gridIssue : bool;
  batteryFault : bool
}.

(** [Date | undefined], a date by its epoch milliseconds. *)
Record DateRange : Type := {
  from : option Z;
  to : option Z
}.

(** The component state that [runSimulation] reads. *)
Record State : Type := {
  mode : Mode;
  turbineCount : R;
  turbineAvailability : R;
  batteryCapacity : R;
  faults : Faults;
  dateRange : DateRange
}.

(** The state the page starts in. *)
Definition initialState : State := {|
  mode := MANUAL;
  turbineCount := 50;
  turbineAvailability := 0.95;
  batteryCapacity := 300;
  faults := {| turbineFailure := false; multipleTurbineFailure := false;
               gridIssue := false; batteryFault := false |};
  dateRange := {| from := None; to := None |}
|}.

Definition requestBody (s : State) : Object :=
  List.app
  [ ("use_live_data", Bool (Mode_eqb (mode s) LIVE));
    ("turbine_count", Num (turbineCount s));
    ("turbine_availability",
       Num (if multipleTurbineFailure (faults s) then 0.25
            else if turbineFailure (faults s) then 0.5
            else turbineAvailability s));
    ("battery_capacity_mwh",
       Num (if batteryFault (faults s) then batteryCapacity s * 0.5
            else batteryCapacity s));
    ("initial_battery_mwh", Num (batteryCapacity s / 2));
    ("community_demand_percent", Num 0.01);
    ("community_base_load_mw", Num 75.0);
    ("battery_max_charge_mw", Num 50.0);
    ("battery_max_discharge_mw", Num 100.0);
    ("low_wind_threshold", Num 3.0);
    ("high_wind_threshold", Num 25.0);
    ("battery_low_threshold", Num 0.2);
    ("battery_high_threshold", Num 0.8) ]
  (* the spread of the optional date range *)
  match mode s, from (dateRange s), to (dateRange s) with
  | CUSTOM, Some f, Some t =>
      [ ("date_range", Obj [ ("from", Iso f); ("to", Iso t) ]) ]
  | _, _, _ => []
  end.

(** Setting one fault flag, as the checkboxes of the fault panel do. *)
Definition with_gridIssue (b : bool) (s : State) : State := {|
  mode := mode s;
  turbineCount := turbineCount s;
  turbineAvailability := turbineAvailability s;
  batteryCapacity := batteryCapacity s;
  faults := {| turbineFailure := turbineFailure (faults s);
               multipleTurbineFailure := multipleTurbineFailure (faults s);
               gridIssue := b;
               batteryFault := batteryFault (faults s) |};
  dateRange := dateRange s
|}.

(** *** The LIVE record buffer *)

(** The updater passed to [setSimulationData] in LIVE mode. *)
Definition liveUpdate {A : Type} (newDataPoint : A) (prev : list A) : list A :=
  List.app (slice (-23) prev) [newDataPoint].

(** *** The mock simulation data *)

(** The fields of [interface SimulationDataPoint], with their types. *)
Inductive TsType : Type := TsNumber | TsString.

Definition SimulationDataPoint : list (string * TsType) :=
  [ ("hour", TsNumber);
    ("datetime", TsString);
    ("simulated_supply_mw", TsNumber);
    ("simulated_demand_mw", TsNumber);
    ("net_balance_mw", TsNumber);
    ("battery_charge_mwh", TsNumber);
    ("battery_percent", TsNumber);
    ("to_battery_mw", TsNumber);
    ("from_battery_mw", TsNumber);
    ("to_grid_mw", TsNumber);
    ("from_grid_mw", TsNumber);
    ("status", TsString);
    ("wind_speed", TsNumber);
    ("wind_direction", TsNumber) ].

Definition has_type (v : Value) (t : TsType) : bool :=
  match v, t with
  | Num _, TsNumber => true
  | Str _, TsString => true
  | Iso _, TsString => true
  | _, _ => false
  end.

(** An object has an interface when it carries the declared properties, in
    the declared order, each at its declared type, and nothing else. *)
Fixpoint conforms (o : Object) (i : list (string * TsType)) : bool :=
  match o, i with
  | [], [] => true
  | (k, v) :: o', (k', t) :: i' => String.eqb k k' && has_type v t && conforms o' i'
  | _, _ => false
  end.

(** The demand of the hour: base, morning peak, midday, evening peak, night. *)
Definition mockDemand (hourOfDay : nat) : R :=
  if ((7 <=? hourOfDay) && (hourOfDay <=? 9))%nat then 95
  else if ((12 <=? hourOfDay) && (hourOfDay <=? 14))%nat then 85
  else if ((17 <=? hourOfDay) && (hourOfDay <=? 20))%nat then 110
  else if ((22 <=? hourOfDay) || (hourOfDay <=? 5))%nat then 60
  else 70.

(** The callback of [Array.from]: one mock record. *)
Definition mockPoint (hour : nat) : M Object :=
  let hourOfDay := hour in
  let demand := mockDemand hourOfDay in
  r1 <- Math_random ;;
  let supply := 50 + (sin (INR hourOfDay * PI / 12) * 20) + r1 * 15 in
  let netBalance := supply - demand in
  r2 <- Math_random ;;
  let batteryLevel := 30 + (sin (INR hourOfDay * PI / 12) * 20) + r2 * 10 in
  t <- Date_now ;;
  r3 <- Math_random ;;
  r4 <- Math_random ;;
  r5 <- Math_random ;;
  ret
    [ ("hour", Num (INR hourOfDay));
      ("datetime", Iso (t + Z.of_nat hour * 3600000));
      ("simulated_supply_mw", Num (Rmax 0 supply));
      ("simulated_demand_mw", Num (Rmax 0 (demand + r3 * 10)));
      ("net_balance_mw", Num netBalance);
      ("battery_charge_mwh", Num (batteryLevel * 3));
      ("battery_percent", Num (Rmax 10 (Rmin 95 batteryLevel)));
      ("to_battery_mw", Num (if Rgt_dec netBalance 0 then Rmin netBalance 20 else 0));
      ("from_battery_mw",
         Num (if Rlt_dec netBalance 0 then Rmin (Rabs netBalance) 25 else 0));
      ("to_grid_mw", Num (if Rgt_dec netBalance 0 then Rmax 0 (netBalance - 5) else 0));
      ("from_grid_mw",
         Num (if Rlt_dec netBalance 0 then Rmax 0 (Rabs netBalance - 5) else 0));
      ("status",
         Str (if Rgt_dec netBalance 5 then "Surplus"
              else if Rlt_dec netBalance (-5) then "Deficit"
              else "Balanced"));
      ("wind_speed", Num (5 + sin (INR hourOfDay * PI / 12) * 5 + r4 * 3));
      ("wind_direction", Num (180 + sin (INR hourOfDay * PI / 6) * 60 + r5 * 30)) ].

Definition mockSimulationData : M (list Object) := Array_from 24 mockPoint.

(** The status string of a record. *)
Definition status (o : Object) : string :=
  match get "status" o with
  | Some (Str s) => s
  | _ => ""
  end.

(** The left side of the energy balance of a record. *)
Definition balance (o : Object) : R :=
  num "to_battery_mw" o - num "from_battery_mw" o
  + num "to_grid_mw" o - num "from_grid_mw" o.

(** The calls one record makes: five draws and one clock reading. *)
Definition after_point (c : Calls) : Calls :=
  {| random_calls := 5 + random_calls c; now_calls := 1 + now_calls c |}.

End Index.

(** ** components/dashboard/DashboardHeader.tsx: the alert groups *)

Module DashboardHeader.

Record Alert : Type := {
  level : string;
  message : string;
  timestamp : string
}.

Definition criticalAlerts (alerts : list Alert) : list Alert :=
  filter (fun a => String.eqb (level a) "critical") alerts.

Definition warningAlerts (alerts : list Alert) : list Alert :=
  filter (fun a => String.eqb (level a) "warning") alerts.

Definition infoAlerts (alerts : list Alert) : list Alert :=
  filter (fun a => String.eqb (level a) "info"
                   || negb (Js.includes ["critical"; "warning"] (level a))) alerts.

(** The icons of lucide-react that the notification sheet uses. *)
Inductive Icon : Type := AlertCircle | AlertTriangle | Info.

Definition getAlertIcon (level : string) : Icon :=
  if String.eqb level "critical" then AlertCircle
  else if String.eqb level "warning" then AlertTriangle
  else Info.

(** [formatUTC], on the string that [date.toISOString()] hands it. *)
Definition formatUTC (iso : string) : string :=
  String.append
    (String.substring 0 19 (Js.replace_char "T"%char " "%char iso))
    " UTC".

End DashboardHeader.

(** ** pages/Index.tsx: the page state and what is derived from it *)

Module Page.

Import Js Index.

(** The body of a reply of the simulation API; any part may be missing. *)
Record SimulationResponse : Type := {
  simulation_data : option (list Object);
  response_alerts : option (list DashboardHeader.Alert);
  maintenance_windows : option (list Object);
  response_summary : option Object
}.

(** The state the reply is written to. *)
Record Shown : Type := {
  simulationData : list Object;
  alerts : list DashboardHeader.Alert;
  maintenanceWindows : list Object;
  summary : option Object;
  liveUpdateCount : nat
}.

(** The updater passed to [setAlerts] in LIVE mode. *)
Definition alertsUpdate {A : Type} (newAlerts prev : list A) : list A :=
  List.app newAlerts (slice_range 0 9 prev).

(** What [runSimulation] does with a reply that arrived.  [seen] is the
    [simulationData] the running closure holds, [st] the state the updaters
    meet. *)
Definition handleResponse (mode : Mode) (seen : list Object)
    (data : SimulationResponse) (st : Shown) : Shown :=
  match simulation_data data with
  | Some (d :: ds) =>
      if Mode_eqb mode LIVE && (0 <? List.length seen)%nat then
        {| simulationData := liveUpdate (List.last (d :: ds) d) (simulationData st);
           alerts := match response_alerts data with
                     | Some (a :: al) => alertsUpdate (a :: al) (alerts st)
                     | _ => alerts st
                     end;
           maintenanceWindows := maintenanceWindows st;
           summary := summary st;
           liveUpdateCount := liveUpdateCount st + 1 |}
      else
        {| simulationData := d :: ds;
           alerts := match response_alerts data with
                     | Some al => al
                     | None => []
                     end;
           maintenanceWindows := match maintenance_windows data with
                                 | Some ws => ws
                                 | None => []
                                 end;
           summary := response_summary data;
           liveUpdateCount := liveUpdateCount st |}
  | _ => st
  end.

(** The record every panel shows: the last of the buffer. *)
Definition latestData (simulationData : list Object) : option Object :=
  if (0 <? List.length simulationData)%nat
  then nth_error simulationData (List.length simulationData - 1)
  else None.

(** The two values the page computes for the health strip. *)
Definition gridStability (latestData : option Object) : R :=
  match latestData with
  | Some d => if Rlt_dec (Rabs (num "net_balance_mw" d)) 10 then 95 else 75
  | None => 95
  end.

Definition batteryHealth (latestData : option Object) : R :=
  match latestData with
  | Some d => num "battery_percent" d
  | None => 88
  end.

(** The dot beside the title of the alerts panel. *)
Definition alertIndicator (alerts : list DashboardHeader.Alert) : string :=
  if existsb (fun a => String.eqb (DashboardHeader.level a) "critical") alerts
  then "bg-destructive animate-pulse"
  else if existsb (fun a => String.eqb (DashboardHeader.level a) "warning") alerts
  then "bg-warning"
  else "bg-success".

End Page.

(** ** components/dashboard/SystemHealth.tsx *)

Module SystemHealth.

Record Metric : Type := {
  label : string;
  value : R;
  color : string
}.

Definition metrics (gridStability batteryHealth networkStatus mlConfidence : R)
  : list Metric :=
  [ {| label := "Grid Stability";
       value := gridStability;
       color := if Rgt_dec gridStability 90 then "success"
                else if Rgt_dec gridStability 70 then "warning"
                else "destructive" |};
    {| label := "Battery Health";
       value := batteryHealth;
       color := if Rgt_dec batteryHealth 90 then "success"
                else if Rgt_dec batteryHealth 70 then "warning"
                else "destructive" |};
    {| label := "Network";
       value := networkStatus;
       color := if Rgt_dec networkStatus 90 then "success"
                else if Rgt_dec networkStatus 70 then "warning"
                else "destructive" |};
    {| label := "ML Confidence";
       value := mlConfidence;
       color := if Rgt_dec mlConfidence 90 then "success"
                else if Rgt_dec mlConfidence 70 then "warning"
                else "destructive" |} ].

(** The strip as the page renders it. *)
Definition ofPage (simulationData : list Js.Object) : list Metric :=
  metrics (Page.gridStability (Page.latestData simulationData))
          (Page.batteryHealth (Page.latestData simulationData))
          100 92.

(** The colour shown for a label. *)
Definition colorOf (l : string) (ms : list Metric) : option string :=
  match find (fun m => String.eqb (label m) l) ms with
  | Some m => Some (color m)
  | None => None
  end.

End SystemHealth.

(** ** components/dashboard/DataFeed.tsx, the texts without numbers *)

Module DataFeed.

Import Js.

Definition gridText (data : Object) : string :=
  String.append "Grid "
    (if Rgt_dec (num "to_grid_mw" data) 0 then "exporting"
     else if Rgt_dec (num "from_grid_mw" data) 0 then "importing"
     else "balanced").

End DataFeed.

(** ** components/dashboard/MetricsGrid.tsx, the derived flags *)

Module MetricsGrid.

Import Js.

Definition isBalanced (data : Object) : bool :=
  if Rlt_dec (Rabs (num "net_balance_mw" data)) 5 then true else false.

Definition batteryStatus (data : Object) : string :=
  if Rgt_dec (num "battery_percent" data) 80 then "high"
  else if Rgt_dec (num "battery_percent" data) 30 then "medium"
  else "low".

(** The colour of the NET BALANCE tile. *)
Definition netBalanceColor (data : Object) : string :=
  if isBalanced data then "success"
  else if Rgt_dec (num "net_balance_mw" data) 0 then "supply"
  else "warning".

End MetricsGrid.

(** ** components/dashboard/EnergyFlowSchematic.tsx, the derived values *)

Module EnergyFlowSchematic.

Import Js.

Definition isExporting (data : Object) : bool :=
  if Rgt_dec (num "to_grid_mw" data) 0 then true else false.

Definition isImporting (data : Object) : bool :=
  if Rgt_dec (num "from_grid_mw" data) 0 then true else false.

Definition imbalance (data : Object) : R :=
  let expectedBalance :=
    num "simulated_supply_mw" data - num "simulated_demand_mw" data in
  let actualBalance := num "net_balance_mw" data in
  Rabs (expectedBalance - actualBalance).

Definition hasImbalance (data : Object) : bool :=
  if Rgt_dec (imbalance data) 5 then true else false.

(** The caption under the grid tower. *)
Definition gridCaption (data : Object) : string :=
  String.append "GRID "
    (if isExporting data then "EXPORT"
     else if isImporting data then "IMPORT"
     else "STANDBY").

(** The rectangle that fills the battery: its top edge and its height, in
    the 62 units between y = 59 and y = 121. *)
Definition batteryFillY (data : Object) : R :=
  let batteryFillPercent := num "battery_percent" data in
  59 + (62 * (1 - batteryFillPercent / 100)).

Definition batteryFillHeight (data : Object) : R :=
  let batteryFillPercent := num "battery_percent" data in
  62 * batteryFillPercent / 100.

End EnergyFlowSchematic.

(** * Proofs *)

(** Case analysis on every [Rmin], [Rmax], [Rabs] and comparison in sight,
    then linear arithmetic. *)
Ltac split_reals :=
  unfold Optimizer.min3, Rmin, Rmax, Rabs in *;
  repeat match goal with
         | |- context [Rle_dec ?a ?b] => destruct (Rle_dec a b)
         | |- context [Rlt_dec ?a ?b] => destruct (Rlt_dec a b)
         | |- context [Rgt_dec ?a ?b] => destruct (Rgt_dec a b)
         | |- context [Rcase_abs ?a] => destruct (Rcase_abs a)
         | _ : context [Rle_dec ?a ?b] |- _ => destruct (Rle_dec a b)
         | _ : context [Rcase_abs ?a] |- _ => destruct (Rcase_abs a)
         end;
  try lra.

(** ** The grid optimisation algorithm *)

Section OptimizerProofs.

Import Optimizer.

Variables cap cc dc : R.

Lemma optimize_grid_surplus (supply demand soc : R) :
  0 < supply - demand ->
  optimize_grid cap cc dc supply demand soc
  = [ ("battery_charge", min3 (supply - demand) cc ((0.8 - soc) * cap));
      ("grid_export",
         supply - demand - min3 (supply - demand) cc ((0.8 - soc) * cap)) ].
Proof.
  intros Hs. unfold optimize_grid.
  destruct (Rlt_dec 0 (supply - demand)); [reflexivity | contradiction].
Qed.

Lemma optimize_grid_deficit (supply demand soc : R) :
  supply - demand <= 0 ->
  optimize_grid cap cc dc supply demand soc
  = [ ("battery_discharge", min3 (demand - supply) dc ((soc - 0.2) * cap));
      ("grid_import",
         demand - supply - min3 (demand - supply) dc ((soc - 0.2) * cap)) ].
Proof.
  intros Hs. unfold optimize_grid.
  destruct (Rlt_dec 0 (supply - demand)); [lra |].
  replace (Rabs (supply - demand)) with (demand - supply); [reflexivity |].
  unfold Rabs. destruct (Rcase_abs (supply - demand)); lra.
Qed.

Lemma applied_mw_surplus (supply demand soc : R) :
  0 < supply - demand ->
  applied_mw cap cc dc supply demand soc
  = min3 (supply - demand) cc ((0.8 - soc) * cap).
Proof.
  intros Hs. unfold applied_mw. rewrite optimize_grid_surplus by assumption.
  destruct (Rlt_dec 0 (supply - demand)); [reflexivity | contradiction].
Qed.

Lemma applied_mw_deficit (supply demand soc : R) :
  supply - demand <= 0 ->
  applied_mw cap cc dc supply demand soc
  = min3 (demand - supply) dc ((soc - 0.2) * cap).
Proof.
  intros Hs. unfold applied_mw. rewrite optimize_grid_deficit by assumption.
  destruct (Rlt_dec 0 (supply - demand)); [lra | reflexivity].
Qed.

End OptimizerProofs.

(** Scenario A of the specification: a surplus of 30 MW with the battery at
    half of 300 MWh is charged whole, nothing is exported. *)
Example scenario_A_charge (dc : R) :
  Optimizer.optimize_grid 300 50 dc 100 70 (150 / 300)
  = [ ("battery_charge", 30); ("grid_export", 0) ].
Proof.
  rewrite optimize_grid_surplus by lra.
  replace (Optimizer.min3 (100 - 70) 50 ((0.8 - 150 / 300) * 300)) with 30
    by split_reals.
  repeat f_equal. lra.
Qed.

(** Scenario C: the same with the charge limit halved to 25 MW. *)
Example scenario_C_charge_limited (dc : R) :
  Optimizer.optimize_grid 300 25 dc 100 70 (150 / 300)
  = [ ("battery_charge", 25); ("grid_export", 5) ].
Proof.
  rewrite optimize_grid_surplus by lra.
  replace (Optimizer.min3 (100 - 70) 25 ((0.8 - 150 / 300) * 300)) with 25
    by split_reals.
  repeat f_equal. lra.
Qed.

(** C1, as amended.  Every dispatch of [optimize_grid] balances exactly:
    charge minus discharge plus export minus import is supply minus demand,
    so the two differ by less than the tolerance of 5 MW. *)
Theorem optimize_grid_energy_balance (cap cc dc supply demand soc : R) :
  let d := Optimizer.optimize_grid cap cc dc supply demand soc in
  let flows := Optimizer.to_battery_mw d - Optimizer.from_battery_mw d
               + Optimizer.to_grid_mw d - Optimizer.from_grid_mw d in
  flows = supply - demand /\ Rabs (flows - (supply - demand)) <= 5.
Proof.
  intros d flows.
  assert (Hbal : flows = supply - demand).
  { subst flows d.
    destruct (Rlt_dec 0 (supply - demand)) as [Hs | Hs].
    - rewrite optimize_grid_surplus by assumption.
      unfold Optimizer.to_battery_mw, Optimizer.from_battery_mw,
        Optimizer.to_grid_mw, Optimizer.from_grid_mw, Optimizer.flow.
      simpl. lra.
    - rewrite optimize_grid_deficit by lra.
      unfold Optimizer.to_battery_mw, Optimizer.from_battery_mw,
        Optimizer.to_grid_mw, Optimizer.from_grid_mw, Optimizer.flow.
      simpl. lra. }
  split; [exact Hbal |].
  rewrite Hbal. replace (supply - demand - (supply - demand)) with 0 by lra.
  rewrite Rabs_R0. lra.
Qed.

(** C2, the claim refuted.  With the battery at 90 % of 300 MWh, a surplus
    of 30 MW and a charge limit of 50 MW, the call applies -30 MW, where the
    floored formula gives 0. *)
Lemma optimize_grid_negative_charge :
  Optimizer.applied_mw 300 50 100 100 70 0.9 = -30 /\
  spec_applied_mw (100 - 70) 50 (0.8 * 300 - 0.9 * 300) 1 = 0 /\
  Optimizer.applied_mw 300 50 100 100 70 0.9
  <> spec_applied_mw (100 - 70) 50 (0.8 * 300 - 0.9 * 300) 1 /\
  Optimizer.optimize_grid 300 50 100 100 70 0.9
  = [ ("battery_charge", -30); ("grid_export", 60) ].
Proof.
  assert (Hm : Optimizer.min3 (100 - 70) 50 ((0.8 - 0.9) * 300) = -30)
    by split_reals.
  assert (Ha : Optimizer.applied_mw 300 50 100 100 70 0.9 = -30)
    by (rewrite applied_mw_surplus by lra; exact Hm).
  assert (Hf : spec_applied_mw (100 - 70) 50 (0.8 * 300 - 0.9 * 300) 1 = 0)
    by (unfold spec_applied_mw; split_reals).
  split; [exact Ha |]. split; [exact Hf |]. split.
  - rewrite Ha, Hf. lra.
  - rewrite optimize_grid_surplus by lra. rewrite Hm.
    repeat f_equal. lra.
Qed.

(** C2, as amended.  Every call returns one of the two dispatches, and the
    power it applies is the least of the desired power, the power limit and
    the headroom to the fixed thresholds (0.8 and 0.2 of the capacity, one
    hour per step), with no floor: it equals the floored formula exactly
    when the power limit and the headroom are not negative. *)
Theorem optimize_grid_applied_power (cap cc dc supply demand soc : R) :
  let surplus := supply - demand in
  let desired_mw := Rabs surplus in
  let max_power_mw := if Rlt_dec 0 surplus then cc else dc in
  let headroom_mwh := if Rlt_dec 0 surplus
                      then 0.8 * cap - soc * cap
                      else soc * cap - 0.2 * cap in
  let d := Optimizer.optimize_grid cap cc dc supply demand soc in
  let applied := Optimizer.applied_mw cap cc dc supply demand soc in
  (Optimizer.dict_keys d = ["battery_charge"; "grid_export"] \/
   Optimizer.dict_keys d = ["battery_discharge"; "grid_import"]) /\
  applied = Optimizer.min3 desired_mw max_power_mw headroom_mwh /\
  (applied = spec_applied_mw desired_mw max_power_mw headroom_mwh 1
   <-> 0 <= max_power_mw /\ 0 <= headroom_mwh).
Proof.
  intros surplus desired_mw max_power_mw headroom_mwh d applied.
  subst applied d desired_mw max_power_mw headroom_mwh surplus.
  unfold spec_applied_mw.
  destruct (Rlt_dec 0 (supply - demand)) as [Hs | Hs].
  - rewrite optimize_grid_surplus, applied_mw_surplus by assumption.
    split; [left; reflexivity |].
    replace ((0.8 - soc) * cap) with (0.8 * cap - soc * cap) by lra.
    replace ((0.8 * cap - soc * cap) / 1) with (0.8 * cap - soc * cap) by lra.
    replace (Rabs (supply - demand)) with (supply - demand)
      by (unfold Rabs; destruct (Rcase_abs (supply - demand)); lra).
    split; [reflexivity |].
    split; [intros H; revert H | intros [H1 H2]]; split_reals;
      intros; split; lra.
  - rewrite optimize_grid_deficit, applied_mw_deficit by lra.
    split; [right; reflexivity |].
    replace ((soc - 0.2) * cap) with (soc * cap - 0.2 * cap) by lra.
    replace ((soc * cap - 0.2 * cap) / 1) with (soc * cap - 0.2 * cap) by lra.
    replace (Rabs (supply - demand)) with (demand - supply)
      by (unfold Rabs; destruct (Rcase_abs (supply - demand)); lra).
    split; [reflexivity |].
    split; [intros H; revert H | intros [H1 H2]]; split_reals;
      intros; split; lra.
Qed.

(** C4.  Scenario B: supply 40 MW, demand 100 MW, a 300 MWh battery at
    75 MWh, discharge limit 100 MW.  The call discharges 15 MW, the least of
    60, 100 and the headroom 15, and imports 45 MW; one hour of that
    discharge leaves 60 MWh, the low threshold. *)
Theorem scenario_B_discharge_limited (cc : R) :
  let d := Optimizer.optimize_grid 300 cc 100 40 100 (75 / 300) in
  d = [ ("battery_discharge", 15); ("grid_import", 45) ] /\
  Optimizer.applied_mw 300 cc 100 40 100 (75 / 300) = Optimizer.min3 60 100 15 /\
  Optimizer.from_battery_mw d = 15 /\
  Optimizer.from_grid_mw d = 45 /\
  75 - Optimizer.from_battery_mw d * 1 = 60 /\
  75 - Optimizer.from_battery_mw d * 1 = 0.2 * 300.
Proof.
  intros d.
  assert (Hm : Optimizer.min3 (100 - 40) 100 ((75 / 300 - 0.2) * 300) = 15)
    by split_reals.
  assert (Hd : d = [ ("battery_discharge", 15); ("grid_import", 45) ]).
  { subst d. rewrite optimize_grid_deficit by lra. rewrite Hm.
    repeat f_equal. lra. }
  split; [exact Hd |].
  split.
  { rewrite applied_mw_deficit by lra. rewrite Hm. split_reals. }
  rewrite Hd.
  unfold Optimizer.from_battery_mw, Optimizer.from_grid_mw, Optimizer.flow.
  simpl. repeat split; lra.
Qed.

(** ** Array.from under the effects *)

Section ArrayFromProofs.

Import Effects.

Context {A : Type} (f : nat -> M A) (w : World).

(** What holds of every value the callback can return holds of every
    element of the array. *)
Lemma Array_from_aux_Forall (P : A -> Prop) :
  (forall j c, P (fst (f j w c))) ->
  forall n i c, Forall P (fst (Array_from_aux f i n w c)).
Proof.
  intros HP. induction n as [| n IH]; intros i c; simpl.
  - constructor.
  - unfold bind, ret.
    pose proof (HP i c) as Hx. specialize (IH (S i) (snd (f i w c))).
    destruct (f i w c) as [x c1]; simpl in *.
    destruct (Array_from_aux f (S i) n w c1) as [xs c2]; simpl in *.
    constructor; assumption.
Qed.

Lemma Array_from_aux_length :
  forall n i c, List.length (fst (Array_from_aux f i n w c)) = n.
Proof.
  induction n as [| n IH]; intros i c; simpl; [reflexivity |].
  unfold bind, ret. specialize (IH (S i) (snd (f i w c))).
  destruct (f i w c) as [x c1]; simpl in *.
  destruct (Array_from_aux f (S i) n w c1) as [xs c2]; simpl in *.
  now rewrite IH.
Qed.

(** When each callback advances the call counts by the same [step]. *)
Variable step : Calls -> Calls.
Hypothesis f_calls : forall j c, snd (f j w c) = step c.

Lemma Array_from_aux_calls :
  forall n i c, snd (Array_from_aux f i n w c) = Nat.iter n step c.
Proof.
  induction n as [| n IH]; intros i c; [reflexivity |].
  rewrite Nat.iter_succ_r, <- (f_calls i c). simpl. unfold bind, ret.
  specialize (IH (S i) (snd (f i w c))).
  destruct (f i w c) as [x c1]; simpl in *.
  destruct (Array_from_aux f (S i) n w c1) as [xs c2]; simpl in *.
  exact IH.
Qed.

Lemma Array_from_aux_nth :
  forall n i c j, (j < n)%nat ->
  nth_error (fst (Array_from_aux f i n w c)) j
  = Some (fst (f (i + j) w (Nat.iter j step c))).
Proof.
  induction n as [| n IH]; intros i c j Hj; [lia |].
  simpl. unfold bind, ret.
  destruct j as [| j].
  - rewrite Nat.add_0_r. simpl.
    destruct (f i w c) as [x c1]; simpl.
    destruct (Array_from_aux f (S i) n w c1) as [xs c2]; reflexivity.
  - specialize (IH (S i) (snd (f i w c)) j ltac:(lia)).
    rewrite Nat.iter_succ_r, <- (f_calls i c), <- Nat.add_succ_comm.
    destruct (f i w c) as [x c1]; simpl in *.
    destruct (Array_from_aux f (S i) n w c1) as [xs c2]; simpl in *.
    exact IH.
Qed.

End ArrayFromProofs.

(** ** The mock simulation data *)

Section MockProofs.

Import Js Effects Index.

Variables (w : World) (c : Calls) (hour : nat).

Lemma mockPoint_calls : snd (mockPoint hour w c) = after_point c.
Proof. reflexivity. Qed.

Lemma mock_net_balance :
  num "net_balance_mw" (fst (mockPoint hour w c))
  = 50 + sin (INR hour * PI / 12) * 20 + random w (random_calls c) * 15
    - mockDemand hour.
Proof. reflexivity. Qed.

Lemma mock_supply :
  num "simulated_supply_mw" (fst (mockPoint hour w c))
  = Rmax 0 (50 + sin (INR hour * PI / 12) * 20 + random w (random_calls c) * 15).
Proof. reflexivity. Qed.

Lemma mock_demand :
  num "simulated_demand_mw" (fst (mockPoint hour w c))
  = Rmax 0 (mockDemand hour + random w (2 + random_calls c) * 10).
Proof. reflexivity. Qed.

Lemma mock_battery_charge :
  num "battery_charge_mwh" (fst (mockPoint hour w c))
  = (30 + sin (INR hour * PI / 12) * 20 + random w (1 + random_calls c) * 10) * 3.
Proof. reflexivity. Qed.

Lemma mock_balance :
  balance (fst (mockPoint hour w c))
  = let netBalance := num "net_balance_mw" (fst (mockPoint hour w c)) in
    (if Rgt_dec netBalance 0 then Rmin netBalance 20 else 0)
    - (if Rlt_dec netBalance 0 then Rmin (Rabs netBalance) 25 else 0)
    + (if Rgt_dec netBalance 0 then Rmax 0 (netBalance - 5) else 0)
    - (if Rlt_dec netBalance 0 then Rmax 0 (Rabs netBalance - 5) else 0).
Proof. reflexivity. Qed.

Lemma mock_status :
  status (fst (mockPoint hour w c))
  = let netBalance := num "net_balance_mw" (fst (mockPoint hour w c)) in
    if Rgt_dec netBalance 5 then "Surplus"
    else if Rlt_dec netBalance (-5) then "Deficit"
    else "Balanced".
Proof. reflexivity. Qed.

Lemma mock_keys :
  keys (fst (mockPoint hour w c)) = map fst SimulationDataPoint.
Proof. reflexivity. Qed.

Lemma mock_conforms :
  conforms (fst (mockPoint hour w c)) SimulationDataPoint = true.
Proof. reflexivity. Qed.

End MockProofs.

Section MockDataProofs.

Import Js Effects Index.

Lemma shifting_draw (k : nat) :
  random shifting k = if (k <? 120)%nat then 0 else 1 / 2.
Proof. reflexivity. Qed.

Lemma calm_fair : fair calm.
Proof. intros k. simpl. lra. Qed.

Lemma mockDemand_range (h : nat) : 60 <= mockDemand h <= 110.
Proof.
  unfold mockDemand.
  repeat match goal with
         | |- context [if ?b then _ else _] => destruct b
         end; lra.
Qed.

Lemma mockSimulationData_nth (w : World) (c : Calls) (h : nat) :
  (h < 24)%nat ->
  nth_error (fst (mockSimulationData w c)) h
  = Some (fst (mockPoint h w (Nat.iter h after_point c))).
Proof.
  intros Hh. unfold mockSimulationData, Array_from.
  rewrite (Array_from_aux_nth mockPoint w after_point) by
    (intros; try apply mockPoint_calls; assumption).
  reflexivity.
Qed.

Lemma mockSimulationData_length (w : World) (c : Calls) :
  List.length (fst (mockSimulationData w c)) = 24%nat.
Proof. apply Array_from_aux_length. Qed.

Lemma mockSimulationData_calls (w : World) (c : Calls) :
  snd (mockSimulationData w c)
  = {| random_calls := 120 + random_calls c; now_calls := 24 + now_calls c |}.
Proof.
  unfold mockSimulationData, Array_from.
  rewrite (Array_from_aux_calls mockPoint w after_point)
    by (intros; apply mockPoint_calls).
  reflexivity.
Qed.

(** In the evening peak the mock flows overshoot the net balance by 20 MW,
    whatever the draws. *)
Lemma mock_evening_unbalanced (w : World) (c : Calls) :
  fair w ->
  let o := fst (mockPoint 18 w c) in
  balance o = num "net_balance_mw" o - 20 /\
  10 < Rabs (balance o
             - (num "simulated_supply_mw" o - num "simulated_demand_mw" o)).
Proof.
  intros Hw o. subst o.
  rewrite mock_balance. cbv zeta.
  rewrite mock_net_balance, mock_supply, mock_demand.
  pose proof (SIN_bound (INR 18 * PI / 12)) as Hs.
  pose proof (Hw (random_calls c)) as H1.
  pose proof (Hw (2 + random_calls c)%nat) as H3.
  change (mockDemand 18) with 110.
  set (s := sin (INR 18 * PI / 12)) in *.
  set (r1 := random w (random_calls c)) in *.
  set (r3 := random w (2 + random_calls c)) in *.
  set (netBalance := 50 + s * 20 + r1 * 15 - 110).
  assert (Hnb : netBalance <= -25) by (subst netBalance; lra).
  destruct (Rgt_dec netBalance 0); [lra |].
  destruct (Rlt_dec netBalance 0); [| lra].
  rewrite (Rabs_left netBalance) by lra.
  rewrite (Rmin_right (- netBalance) 25) by lra.
  rewrite (Rmax_right 0 (- netBalance - 5)) by lra.
  rewrite (Rmax_right 0 (50 + s * 20 + r1 * 15)) by lra.
  rewrite (Rmax_right 0 (110 + r3 * 10)) by lra.
  split; [lra |].
  rewrite Rabs_left; subst netBalance; lra.
Qed.

(** C1, the claim refuted.  With every draw at 0, the record of hour 18 has
    supply 30 MW and demand 110 MW, a net balance of -80 MW, but draws 25 MW
    from the battery and 75 MW from the grid: the flows sum to -100 MW, 20 MW
    off the balance. *)
Lemma mock_evening_record_unbalanced :
  exists o,
    nth_error (fst (mockSimulationData calm start)) 18 = Some o /\
    num "simulated_supply_mw" o - num "simulated_demand_mw" o = -80 /\
    num "net_balance_mw" o = -80 /\
    balance o = -100 /\
    ~ Rabs (balance o
            - (num "simulated_supply_mw" o - num "simulated_demand_mw" o)) <= 5.
Proof.
  eexists. split; [apply mockSimulationData_nth; lia |].
  set (c := Nat.iter 18 after_point start).
  pose proof (mock_evening_unbalanced calm c calm_fair) as [Hb Hu].
  assert (Hs : sin (INR 18 * PI / 12) = -1).
  { replace (INR 18 * PI / 12) with (3 * (PI / 2)); [apply sin_3PI2 |].
    rewrite INR_IZR_INZ. change (IZR (Z.of_nat 18)) with 18. lra. }
  assert (Hn : num "net_balance_mw" (fst (mockPoint 18 calm c)) = -80).
  { rewrite mock_net_balance, Hs.
    change (mockDemand 18) with 110. change (random calm _) with 0. lra. }
  assert (Hf : num "simulated_supply_mw" (fst (mockPoint 18 calm c))
               - num "simulated_demand_mw" (fst (mockPoint 18 calm c)) = -80).
  { rewrite mock_supply, mock_demand, Hs.
    change (mockDemand 18) with 110. change (random calm _) with 0.
    rewrite !Rmax_right; lra. }
  repeat split; try assumption; lra.
Qed.

(** C3.  In every mock record the status is Surplus exactly when the net
    balance exceeds 5 MW, Deficit exactly when it is below -5 MW, and
    Balanced exactly in between. *)
Theorem mock_status_consistent (w : World) (c : Calls) :
  Forall (fun o =>
            (status o = "Surplus" <-> num "net_balance_mw" o > 5) /\
            (status o = "Deficit" <-> num "net_balance_mw" o < -5) /\
            (status o = "Balanced" <-> -5 <= num "net_balance_mw" o <= 5))
         (fst (mockSimulationData w c)).
Proof.
  apply Array_from_aux_Forall. intros h c'.
  rewrite mock_status. cbv zeta.
  set (netBalance := num "net_balance_mw" (fst (mockPoint h w c'))).
  destruct (Rgt_dec netBalance 5); [| destruct (Rlt_dec netBalance (-5))];
    repeat split; intros; try discriminate; try reflexivity; lra.
Qed.

(** C6.  While Math.random() answers in [0, 1), the battery charge of every
    mock record lies between 0 and the 300 MWh of capacity. *)
Theorem mock_battery_within_capacity (w : World) (c : Calls) :
  fair w ->
  Forall (fun o => 0 <= num "battery_charge_mwh" o <= 300)
         (fst (mockSimulationData w c)).
Proof.
  intros Hw. apply Array_from_aux_Forall. intros h c'.
  rewrite mock_battery_charge.
  pose proof (SIN_bound (INR h * PI / 12)).
  pose proof (Hw (1 + random_calls c')%nat).
  lra.
Qed.

Lemma mock_battery_within_capacity_witness :
  Forall (fun o => 0 <= num "battery_charge_mwh" o <= 300)
         (fst (mockSimulationData calm start)).
Proof.
  apply (mock_battery_within_capacity calm start).
  intros k. simpl. lra.
Defined.

(** C8.  Every mock record carries the fourteen properties of
    [SimulationDataPoint], in the declared order and at the declared types,
    and no others; the names are the ones of the external interface. *)
Theorem mock_records_have_interface (w : World) (c : Calls) :
  map fst SimulationDataPoint
  = [ "hour"; "datetime"; "simulated_supply_mw"; "simulated_demand_mw";
      "net_balance_mw"; "battery_charge_mwh"; "battery_percent";
      "to_battery_mw"; "from_battery_mw"; "to_grid_mw"; "from_grid_mw";
      "status"; "wind_speed"; "wind_direction" ] /\
  NoDup (map fst SimulationDataPoint) /\
  Forall (fun o => keys o = map fst SimulationDataPoint /\
                   conforms o SimulationDataPoint = true)
         (fst (mockSimulationData w c)).
Proof.
  split; [reflexivity |]. split.
  - simpl. repeat (constructor; [simpl; intuition discriminate |]).
    constructor.
  - apply Array_from_aux_Forall. intros h c'.
    split; [apply mock_keys | apply mock_conforms].
Qed.

End MockDataProofs.

Section DeterminismProofs.

Import Js Effects Index.

Lemma agree_split (w1 w2 : World) (c : Calls) (n : nat) :
  agree w1 w2 c (5 * S n) (S n) ->
  agree w1 w2 c 5 1 /\ agree w1 w2 (after_point c) (5 * n) n.
Proof.
  intros [Hr Hn]. repeat split; intros k Hk; simpl in *;
    (apply Hr || apply Hn); lia.
Qed.

(** One record reads the world only through its five draws and its clock
    reading. *)
Lemma mockPoint_agree (w1 w2 : World) (c : Calls) (h : nat) :
  agree w1 w2 c 5 1 -> mockPoint h w1 c = mockPoint h w2 c.
Proof.
  intros [Hr Hn]. destruct c as [n m]. simpl in Hr, Hn.
  assert (E0 : random w1 n = random w2 n) by (apply Hr; lia).
  assert (E1 : random w1 (S n) = random w2 (S n)) by (apply Hr; lia).
  assert (E2 : random w1 (S (S n)) = random w2 (S (S n))) by (apply Hr; lia).
  assert (E3 : random w1 (S (S (S n))) = random w2 (S (S (S n))))
    by (apply Hr; lia).
  assert (E4 : random w1 (S (S (S (S n)))) = random w2 (S (S (S (S n)))))
    by (apply Hr; lia).
  assert (En : now w1 m = now w2 m) by (apply Hn; lia).
  unfold mockPoint, bind, Math_random, Date_now, ret. simpl.
  rewrite E0, E1, E2, E3, E4, En. reflexivity.
Qed.

Lemma Array_from_mockPoint_agree (w1 w2 : World) :
  forall n i c,
    agree w1 w2 c (5 * n) n ->
    Array_from_aux mockPoint i n w1 c = Array_from_aux mockPoint i n w2 c.
Proof.
  induction n as [| n IH]; intros i c Ha; [reflexivity |].
  apply agree_split in Ha. destruct Ha as [Ha1 Ha2].
  simpl. unfold bind at 1 3.
  rewrite (mockPoint_agree w1 w2 c i Ha1).
  pose proof (mockPoint_calls w2 c i) as Hc.
  destruct (mockPoint i w2 c) as [x c1]. simpl in Hc. subst c1.
  unfold bind, ret. rewrite (IH (S i) (after_point c) Ha2). reflexivity.
Qed.

(** C7, the claim refuted.  Two evaluations in a row, in a world whose
    draws are 0 for the first and 1/2 for the second, give different
    records: the first net balance is 7.5 MW lower. *)
Lemma mock_data_not_repeatable :
  let first := mockSimulationData shifting start in
  let second := mockSimulationData shifting (snd first) in
  fst first <> fst second.
Proof.
  intros first second H.
  set (c1 := {| random_calls := 120; now_calls := 24 |}).
  assert (Hc : snd first = c1).
  { subst first. unfold mockSimulationData, Array_from.
    rewrite (Array_from_aux_calls mockPoint shifting after_point)
      by (intros; apply mockPoint_calls).
    reflexivity. }
  assert (H1 : nth_error (fst first) 0 = Some (fst (mockPoint 0 shifting start)))
    by (apply mockSimulationData_nth; lia).
  assert (H2 : nth_error (fst second) 0 = Some (fst (mockPoint 0 shifting c1))).
  { subst second. rewrite Hc. apply mockSimulationData_nth. lia. }
  rewrite H, H2 in H1.
  assert (Hn : num "net_balance_mw" (fst (mockPoint 0 shifting c1))
               = num "net_balance_mw" (fst (mockPoint 0 shifting start)))
    by congruence.
  rewrite !mock_net_balance in Hn.
  rewrite !shifting_draw in Hn.
  change (random_calls c1) with 120%nat in Hn.
  change (random_calls start) with 0%nat in Hn.
  destruct (Nat.ltb_spec 120 120); [lia |].
  destruct (Nat.ltb_spec 0 120); [| lia].
  lra.
Qed.

(** C7, as amended.  The mock data is a function of the answers of
    Math.random() and Date.now(): two evaluations that meet the same 120
    draws and the same 24 clock readings give the same records, field by
    field, and leave the same call counts. *)
Theorem mock_data_determined_by_world (w1 w2 : World) (c : Calls) :
  agree w1 w2 c 120 24 ->
  mockSimulationData w1 c = mockSimulationData w2 c.
Proof.
  intros Ha. unfold mockSimulationData, Array_from.
  apply Array_from_mockPoint_agree. exact Ha.
Qed.

Lemma mock_data_determined_by_world_witness :
  mockSimulationData calm start = mockSimulationData shifting start.
Proof.
  apply (mock_data_determined_by_world calm shifting start).
  split; intros k Hk; simpl in *.
  - destruct (Nat.ltb_spec k 120); [reflexivity | lia].
  - reflexivity.
Defined.

End DeterminismProofs.

(** ** The simulation request *)

Section RequestProofs.

Import Js Index.

Lemma requestBody_turbine_availability (s : State) :
  num "turbine_availability" (requestBody s)
  = if multipleTurbineFailure (faults s) then 0.25
    else if turbineFailure (faults s) then 0.5
    else turbineAvailability s.
Proof. reflexivity. Qed.

Lemma requestBody_battery_capacity (s : State) :
  num "battery_capacity_mwh" (requestBody s)
  = if batteryFault (faults s) then batteryCapacity s * 0.5
    else batteryCapacity s.
Proof. reflexivity. Qed.

Lemma requestBody_keys (s : State) :
  keys (requestBody s)
  = List.app
      [ "use_live_data"; "turbine_count"; "turbine_availability";
        "battery_capacity_mwh"; "initial_battery_mwh";
        "community_demand_percent"; "community_base_load_mw";
        "battery_max_charge_mw"; "battery_max_discharge_mw";
        "low_wind_threshold"; "high_wind_threshold";
        "battery_low_threshold"; "battery_high_threshold" ]
      match mode s, from (dateRange s), to (dateRange s) with
      | CUSTOM, Some _, Some _ => [ "date_range" ]
      | _, _, _ => []
      end.
Proof.
  unfold requestBody, keys.
  destruct (mode s), (from (dateRange s)), (to (dateRange s)); reflexivity.
Qed.

(** C5, where the code departs from the claim.  The request never carries a
    [grid_available] property, and ticking or clearing the grid-issue fault
    leaves the whole request as it was: the turbine and battery faults reach
    the request, the grid issue does not. *)
Theorem requestBody_ignores_gridIssue (s : State) (b : bool) :
  get "grid_available" (requestBody s) = None /\
  requestBody (with_gridIssue b s) = requestBody s /\
  requestBody (with_gridIssue true initialState) = requestBody initialState.
Proof.
  split; [| split; reflexivity].
  unfold requestBody.
  destruct (mode s), (from (dateRange s)), (to (dateRange s)); reflexivity.
Qed.

End RequestProofs.

(** ** The LIVE record buffer *)

Section BufferProofs.

Import Js Index.

Context {A : Type}.

(** [slice(-23)] keeps the last 23 elements, or all of a shorter array. *)
Lemma slice_last_23 (l : list A) :
  slice (-23) l = skipn (List.length l - 23) l.
Proof.
  unfold slice. change (-23 <? 0)%Z with true. cbv iota.
  f_equal. lia.
Qed.

Lemma liveUpdate_length (x : A) (prev : list A) :
  List.length (liveUpdate x prev) = (Nat.min (List.length prev) 23 + 1)%nat.
Proof.
  unfold liveUpdate. rewrite slice_last_23, length_app, length_skipn.
  simpl. lia.
Qed.

(** C9.  A LIVE update keeps the 23 most recent records and appends the new
    one: a buffer of at most 24 records stays at most 24 records long. *)
Theorem liveUpdate_bounded (x : A) (prev : list A) :
  (List.length prev <= 24)%nat ->
  liveUpdate x prev = List.app (skipn (List.length prev - 23) prev) [x] /\
  (List.length (liveUpdate x prev) <= 24)%nat.
Proof.
  intros _. split.
  - unfold liveUpdate. now rewrite slice_last_23.
  - rewrite liveUpdate_length. lia.
Qed.

End BufferProofs.

Lemma liveUpdate_bounded_witness :
  Index.liveUpdate 24%nat (seq 0 24)
  = List.app (skipn (List.length (seq 0 24) - 23) (seq 0 24)) [24%nat] /\
  (List.length (Index.liveUpdate 24%nat (seq 0 24)) <= 24)%nat.
Proof.
  apply (liveUpdate_bounded 24%nat (seq 0 24)).
  simpl. lia.
Defined.

(** ** The alert groups of the header *)

Section AlertProofs.

Import DashboardHeader.

(** A level falls under exactly one of the three tests. *)
Lemma level_cases (l : string) :
  (String.eqb l "critical" = true /\ String.eqb l "warning" = false /\
   String.eqb l "info" || negb (Js.includes ["critical"; "warning"] l) = false) \/
  (String.eqb l "critical" = false /\ String.eqb l "warning" = true /\
   String.eqb l "info" || negb (Js.includes ["critical"; "warning"] l) = false) \/
  (String.eqb l "critical" = false /\ String.eqb l "warning" = false /\
   String.eqb l "info" || negb (Js.includes ["critical"; "warning"] l) = true).
Proof.
  unfold Js.includes. simpl.
  destruct (String.eqb_spec l "critical") as [-> | Hc];
    [left; repeat split; reflexivity |].
  destruct (String.eqb_spec l "warning") as [-> | Hw];
    [right; left; repeat split; reflexivity |].
  right; right. repeat split. simpl. apply orb_true_r.
Qed.

(** C10.  The critical, warning and info groups partition the alerts: their
    sizes add up to the number of alerts, and every alert lies in exactly
    one of them. *)
Theorem alert_groups_partition (alerts : list Alert) :
  (List.length (criticalAlerts alerts) + List.length (warningAlerts alerts)
   + List.length (infoAlerts alerts))%nat = List.length alerts /\
  forall a, In a alerts ->
    (In a (criticalAlerts alerts) /\ ~ In a (warningAlerts alerts)
       /\ ~ In a (infoAlerts alerts)) \/
    (~ In a (criticalAlerts alerts) /\ In a (warningAlerts alerts)
       /\ ~ In a (infoAlerts alerts)) \/
    (~ In a (criticalAlerts alerts) /\ ~ In a (warningAlerts alerts)
       /\ In a (infoAlerts alerts)).
Proof.
  split.
  - unfold criticalAlerts, warningAlerts, infoAlerts.
    induction alerts as [| a alerts IH]; [reflexivity |].
    cbn [filter].
    destruct (level_cases (level a)) as [(H1 & H2 & H3) | [(H1 & H2 & H3) | (H1 & H2 & H3)]];
      rewrite H1, H2, H3; cbn [List.length]; lia.
  - intros a Ha.
    unfold criticalAlerts, warningAlerts, infoAlerts.
    rewrite !filter_In.
    destruct (level_cases (level a)) as [(H1 & H2 & H3) | [(H1 & H2 & H3) | (H1 & H2 & H3)]];
      rewrite H1, H2, H3;
      [left | right; left | right; right];
      repeat split; try assumption; try reflexivity;
      intros [_ Hf]; discriminate Hf.
Qed.

End AlertProofs.

(** * Further properties of the code *)

(** ** The grid optimisation algorithm: limits and edge cases *)

Section OptimizerLimits.

Import Optimizer.

Variables cap cc dc : R.

Lemma flows_surplus (supply demand soc : R) :
  0 < supply - demand ->
  let d := optimize_grid cap cc dc supply demand soc in
  to_battery_mw d = min3 (supply - demand) cc ((0.8 - soc) * cap) /\
  to_grid_mw d = supply - demand - min3 (supply - demand) cc ((0.8 - soc) * cap) /\
  from_battery_mw d = 0 /\ from_grid_mw d = 0.
Proof.
  intros Hs d. subst d. rewrite optimize_grid_surplus by assumption.
  unfold to_battery_mw, to_grid_mw, from_battery_mw, from_grid_mw, flow.
  simpl. repeat split; reflexivity.
Qed.

Lemma flows_deficit (supply demand soc : R) :
  supply - demand <= 0 ->
  let d := optimize_grid cap cc dc supply demand soc in
  from_battery_mw d = min3 (demand - supply) dc ((soc - 0.2) * cap) /\
  from_grid_mw d = demand - supply - min3 (demand - supply) dc ((soc - 0.2) * cap) /\
  to_battery_mw d = 0 /\ to_grid_mw d = 0.
Proof.
  intros Hs d. subst d. rewrite optimize_grid_deficit by assumption.
  unfold to_battery_mw, to_grid_mw, from_battery_mw, from_grid_mw, flow.
  simpl. repeat split; reflexivity.
Qed.

(** X1.  What the battery does not take goes to the grid: the export (on a
    surplus) or the import (on a deficit) is the larger of the excess over
    the power limit and the excess over the headroom, or zero when there is
    no excess.  It is never negative, and the flow of the other direction
    is zero. *)
Theorem optimize_grid_grid_flow (supply demand soc : R) :
  let surplus := supply - demand in
  let d := optimize_grid cap cc dc supply demand soc in
  (0 < surplus ->
     to_grid_mw d
     = Rmax 0 (Rmax (surplus - cc) (surplus - (0.8 - soc) * cap))
     /\ from_grid_mw d = 0) /\
  (surplus <= 0 ->
     from_grid_mw d
     = Rmax 0 (Rmax (- surplus - dc) (- surplus - (soc - 0.2) * cap))
     /\ to_grid_mw d = 0) /\
  0 <= to_grid_mw d /\ 0 <= from_grid_mw d.
Proof.
  intros surplus d. subst surplus d.
  destruct (Rlt_dec 0 (supply - demand)) as [Hs | Hs].
  - destruct (flows_surplus supply demand soc Hs) as (_ & Hg & _ & Hi).
    rewrite Hg, Hi.
    repeat split; intros; try lra; split_reals.
  - destruct (flows_deficit supply demand soc ltac:(lra)) as (_ & Hi & _ & Hg).
    rewrite Hg, Hi.
    repeat split; intros; try lra; split_reals.
Qed.

(** X2.  With the battery inside its band (20 % to 80 %) and limits that
    are not negative, the applied power lies between zero and the power
    limit, and one hour of it leaves the stored energy inside the band. *)
Theorem optimize_grid_keeps_band (supply demand soc : R) :
  0 <= cap -> 0 <= cc -> 0 <= dc -> 0.2 <= soc <= 0.8 ->
  let d := optimize_grid cap cc dc supply demand soc in
  0 <= to_battery_mw d <= cc /\
  0 <= from_battery_mw d <= dc /\
  0.2 * cap <= soc * cap + to_battery_mw d * 1 - from_battery_mw d * 1
            <= 0.8 * cap.
Proof.
  intros Hcap Hcc Hdc Hsoc d. subst d.
  assert (H1 : 0 <= (0.8 - soc) * cap) by nra.
  assert (H2 : 0 <= (soc - 0.2) * cap) by nra.
  destruct (Rlt_dec 0 (supply - demand)) as [Hs | Hs].
  - destruct (flows_surplus supply demand soc Hs) as (Hb & _ & Hf & _).
    rewrite Hb, Hf.
    set (h := (0.8 - soc) * cap) in *.
    assert (Hm : 0 <= min3 (supply - demand) cc h <= cc
                 /\ min3 (supply - demand) cc h <= h) by split_reals.
    repeat split; try lra; subst h; nra.
  - destruct (flows_deficit supply demand soc ltac:(lra)) as (Hf & _ & Hb & _).
    rewrite Hb, Hf.
    set (h := (soc - 0.2) * cap) in *.
    assert (Hm : 0 <= min3 (demand - supply) dc h <= dc
                 /\ min3 (demand - supply) dc h <= h) by split_reals.
    repeat split; try lra; subst h; nra.
Qed.

End OptimizerLimits.

Lemma optimize_grid_keeps_band_witness :
  let d := Optimizer.optimize_grid 300 50 100 100 70 (1 / 2) in
  0 <= Optimizer.to_battery_mw d <= 50 /\
  0 <= Optimizer.from_battery_mw d <= 100 /\
  0.2 * 300 <= 1 / 2 * 300 + Optimizer.to_battery_mw d * 1
               - Optimizer.from_battery_mw d * 1
            <= 0.8 * 300.
Proof.
  apply (optimize_grid_keeps_band 300 50 100 100 70 (1 / 2)); lra.
Defined.

(** X3.  A dispatch runs one way: either nothing leaves the battery and
    nothing is imported, or nothing enters the battery and nothing is
    exported. *)
Theorem optimize_grid_one_direction (cap cc dc supply demand soc : R) :
  let d := Optimizer.optimize_grid cap cc dc supply demand soc in
  (0 < supply - demand /\
   Optimizer.from_battery_mw d = 0 /\ Optimizer.from_grid_mw d = 0) \/
  (supply - demand <= 0 /\
   Optimizer.to_battery_mw d = 0 /\ Optimizer.to_grid_mw d = 0).
Proof.
  intros d. subst d.
  destruct (Rlt_dec 0 (supply - demand)) as [Hs | Hs].
  - left. destruct (flows_surplus cap cc dc supply demand soc Hs)
      as (_ & _ & Hf & Hi). auto.
  - right. destruct (flows_deficit cap cc dc supply demand soc ltac:(lra))
      as (_ & _ & Hb & Hg). split; [lra | auto].
Qed.

(** X4.  An hour in exact balance takes the deficit branch: with a battery
    at or above 20 % and a discharge limit that is not negative it returns
    a discharge of 0 and an import of 0. *)
Theorem optimize_grid_exact_balance (cap cc dc power soc : R) :
  0 <= cap -> 0 <= dc -> 0.2 <= soc ->
  Optimizer.optimize_grid cap cc dc power power soc
  = [ ("battery_discharge", 0); ("grid_import", 0) ].
Proof.
  intros Hcap Hdc Hsoc.
  rewrite optimize_grid_deficit by lra.
  assert (H2 : 0 <= (soc - 0.2) * cap) by nra.
  set (h := (soc - 0.2) * cap) in *.
  replace (Optimizer.min3 (power - power) dc h) with 0 by split_reals.
  repeat f_equal. lra.
Qed.

Lemma optimize_grid_exact_balance_witness :
  Optimizer.optimize_grid 300 50 100 80 80 (1 / 2)
  = [ ("battery_discharge", 0); ("grid_import", 0) ].
Proof.
  apply (optimize_grid_exact_balance 300 50 100 80 (1 / 2)); lra.
Defined.

(** ** The mock simulation data: what its records look like *)

Section MockFieldProofs.

Import Js Effects Index.

Variables (w : World) (c : Calls) (hour : nat).

Lemma mock_to_battery :
  num "to_battery_mw" (fst (mockPoint hour w c))
  = let netBalance := num "net_balance_mw" (fst (mockPoint hour w c)) in
    if Rgt_dec netBalance 0 then Rmin netBalance 20 else 0.
Proof. reflexivity. Qed.

Lemma mock_from_battery :
  num "from_battery_mw" (fst (mockPoint hour w c))
  = let netBalance := num "net_balance_mw" (fst (mockPoint hour w c)) in
    if Rlt_dec netBalance 0 then Rmin (Rabs netBalance) 25 else 0.
Proof. reflexivity. Qed.

Lemma mock_to_grid :
  num "to_grid_mw" (fst (mockPoint hour w c))
  = let netBalance := num "net_balance_mw" (fst (mockPoint hour w c)) in
    if Rgt_dec netBalance 0 then Rmax 0 (netBalance - 5) else 0.
Proof. reflexivity. Qed.

Lemma mock_from_grid :
  num "from_grid_mw" (fst (mockPoint hour w c))
  = let netBalance := num "net_balance_mw" (fst (mockPoint hour w c)) in
    if Rlt_dec netBalance 0 then Rmax 0 (Rabs netBalance - 5) else 0.
Proof. reflexivity. Qed.

Lemma mock_battery_percent :
  num "battery_percent" (fst (mockPoint hour w c))
  = Rmax 10 (Rmin 95 (30 + sin (INR hour * PI / 12) * 20
                      + random w (1 + random_calls c) * 10)).
Proof. reflexivity. Qed.

Lemma mock_hour : num "hour" (fst (mockPoint hour w c)) = INR hour.
Proof. reflexivity. Qed.

Lemma mock_datetime :
  get "datetime" (fst (mockPoint hour w c))
  = Some (Iso (now w (now_calls c) + Z.of_nat hour * 3600000)).
Proof. reflexivity. Qed.

End MockFieldProofs.

Section MockRecordProofs.

Import Js Effects Index.

Lemma after_points (k : nat) (c : Calls) :
  Nat.iter k after_point c
  = {| random_calls := 5 * k + random_calls c; now_calls := k + now_calls c |}.
Proof.
  induction k as [| k IH].
  - destruct c; reflexivity.
  - change (Nat.iter (S k) after_point c)
      with (after_point (Nat.iter k after_point c)).
    rewrite IH. unfold after_point. simpl random_calls. simpl now_calls.
    f_equal; lia.
Qed.

(** Under fair draws the net balance stays between -80 and 35 MW. *)
Lemma mock_net_balance_range (w : World) (c : Calls) (h : nat) :
  fair w ->
  -80 <= num "net_balance_mw" (fst (mockPoint h w c)) < 35
  /\ num "net_balance_mw" (fst (mockPoint h w c)) + mockDemand h >= 30.
Proof.
  intros Hw. rewrite mock_net_balance.
  pose proof (SIN_bound (INR h * PI / 12)).
  pose proof (Hw (random_calls c)).
  pose proof (mockDemand_range h).
  lra.
Qed.

(** X5.  Every mock record sends between 0 and 20 MW to the battery, takes
    between 0 and 25 MW from it, exports and imports nothing negative, and
    runs one way: a record that charges or exports neither discharges nor
    imports. *)
Theorem mock_flows_one_direction (w : World) (c : Calls) :
  Forall (fun o =>
            0 <= num "to_battery_mw" o <= 20 /\
            0 <= num "from_battery_mw" o <= 25 /\
            0 <= num "to_grid_mw" o /\
            0 <= num "from_grid_mw" o /\
            ((num "from_battery_mw" o = 0 /\ num "from_grid_mw" o = 0) \/
             (num "to_battery_mw" o = 0 /\ num "to_grid_mw" o = 0)))
         (fst (mockSimulationData w c)).
Proof.
  apply Array_from_aux_Forall. intros h c'.
  rewrite mock_to_battery, mock_from_battery, mock_to_grid, mock_from_grid.
  cbv zeta.
  set (netBalance := num "net_balance_mw" (fst (mockPoint h w c'))).
  destruct (Rgt_dec netBalance 0); destruct (Rlt_dec netBalance 0); try lra.
  - repeat split; try (left; split; reflexivity); split_reals.
  - repeat split; try (right; split; reflexivity); split_reals.
Qed.

(** X6.  Under fair draws the battery percentage of every mock record lies
    between 10 and 60, the clamp to [10, 95] never acts, and the charge in
    MWh is that percentage of 300 MWh. *)
Theorem mock_battery_percent_of_capacity (w : World) (c : Calls) :
  fair w ->
  Forall (fun o =>
            10 <= num "battery_percent" o < 60 /\
            num "battery_charge_mwh" o = num "battery_percent" o / 100 * 300)
         (fst (mockSimulationData w c)).
Proof.
  intros Hw. apply Array_from_aux_Forall. intros h c'.
  rewrite mock_battery_percent, mock_battery_charge.
  pose proof (SIN_bound (INR h * PI / 12)).
  pose proof (Hw (1 + random_calls c')%nat).
  set (batteryLevel := 30 + sin (INR h * PI / 12) * 20
                       + random w (1 + random_calls c') * 10) in *.
  assert (Hb : 10 <= batteryLevel < 60) by (subst batteryLevel; lra).
  rewrite (Rmin_right 95 batteryLevel) by lra.
  rewrite (Rmax_right 10 batteryLevel) by lra.
  lra.
Qed.

Lemma mock_battery_percent_of_capacity_witness :
  Forall (fun o =>
            10 <= num "battery_percent" o < 60 /\
            num "battery_charge_mwh" o = num "battery_percent" o / 100 * 300)
         (fst (mockSimulationData calm start)).
Proof.
  apply (mock_battery_percent_of_capacity calm start).
  intros k. simpl. lra.
Defined.

(** X7.  The mock sequence has 24 records; the record at position k carries
    the hour k and a timestamp k hours after the clock reading taken for
    it, and the run uses up 120 draws and 24 clock readings. *)
Theorem mock_records_by_hour (w : World) (c : Calls) :
  List.length (fst (mockSimulationData w c)) = 24%nat /\
  snd (mockSimulationData w c)
  = {| random_calls := 120 + random_calls c; now_calls := 24 + now_calls c |} /\
  forall k, (k < 24)%nat ->
    exists o,
      nth_error (fst (mockSimulationData w c)) k = Some o /\
      num "hour" o = INR k /\
      get "datetime" o
      = Some (Iso (now w (k + now_calls c) + Z.of_nat k * 3600000)).
Proof.
  split; [apply mockSimulationData_length |].
  split; [apply mockSimulationData_calls |].
  intros k Hk. eexists. split; [apply mockSimulationData_nth; exact Hk |].
  split; [apply mock_hour |].
  rewrite mock_datetime, after_points. reflexivity.
Qed.

(** X8.  Under fair draws the records of the two demand peaks, hours 7 to 9
    and 17 to 20, are always in deficit and always import from the grid. *)
Theorem mock_peak_hours_deficit (w : World) (c : Calls) (k : nat) :
  fair w ->
  (7 <= k <= 9)%nat \/ (17 <= k <= 20)%nat ->
  exists o,
    nth_error (fst (mockSimulationData w c)) k = Some o /\
    status o = "Deficit" /\
    num "net_balance_mw" o <= -10 /\
    num "from_grid_mw" o >= 5.
Proof.
  intros Hw Hk. eexists.
  split; [apply mockSimulationData_nth; lia |].
  set (c' := Nat.iter k after_point c).
  rewrite mock_status, mock_from_grid. cbv zeta.
  assert (Hn : num "net_balance_mw" (fst (mockPoint k w c')) <= -10).
  { rewrite mock_net_balance.
    pose proof (SIN_bound (INR k * PI / 12)).
    pose proof (Hw (random_calls c')).
    assert (Hd : 95 <= mockDemand k).
    { unfold mockDemand.
      destruct Hk as [Hk | Hk].
      - replace ((7 <=? k) && (k <=? 9))%nat with true; [lra |].
        symmetry. apply andb_true_iff. split; apply Nat.leb_le; lia.
      - replace ((7 <=? k) && (k <=? 9))%nat with false
          by (symmetry; apply andb_false_iff; right; apply Nat.leb_gt; lia).
        replace ((12 <=? k) && (k <=? 14))%nat with false
          by (symmetry; apply andb_false_iff; right; apply Nat.leb_gt; lia).
        replace ((17 <=? k) && (k <=? 20))%nat with true; [lra |].
        symmetry. apply andb_true_iff. split; apply Nat.leb_le; lia. }
    lra. }
  set (netBalance := num "net_balance_mw" (fst (mockPoint k w c'))) in *.
  destruct (Rgt_dec netBalance 5); [lra |].
  destruct (Rlt_dec netBalance (-5)); [| lra].
  destruct (Rlt_dec netBalance 0); [| lra].
  split; [reflexivity |]. split; [exact Hn |].
  rewrite (Rabs_left netBalance) by lra.
  rewrite Rmax_right; lra.
Qed.

Lemma mock_peak_hours_deficit_witness :
  exists o,
    nth_error (fst (mockSimulationData calm start)) 18 = Some o /\
    status o = "Deficit" /\
    num "net_balance_mw" o <= -10 /\
    num "from_grid_mw" o >= 5.
Proof.
  apply (mock_peak_hours_deficit calm start 18).
  - intros k. simpl. lra.
  - right. lia.
Defined.

End MockRecordProofs.

Lemma mock_battery_percent_bound (w : Effects.World) (c : Effects.Calls) :
  Effects.fair w ->
  Forall (fun o => 10 <= Js.num "battery_percent" o < 60)
         (fst (Index.mockSimulationData w c)).
Proof.
  intros Hw. apply Array_from_aux_Forall. intros h c'.
  rewrite mock_battery_percent.
  pose proof (SIN_bound (INR h * PI / 12)).
  pose proof (Hw (1 + Effects.random_calls c')%nat).
  set (batteryLevel := 30 + sin (INR h * PI / 12) * 20
                       + Effects.random w (1 + Effects.random_calls c') * 10) in *.
  assert (Hb : 10 <= batteryLevel < 60) by (subst batteryLevel; lra).
  rewrite (Rmin_right 95 batteryLevel) by lra.
  rewrite (Rmax_right 10 batteryLevel) by lra.
  lra.
Qed.

(** ** The panels on the mock data *)

Section PanelProofs.

Import Js Effects Index.

(** The grid flows of a mock record are positive exactly outside the band
    of 5 MW. *)
Lemma mock_grid_flows_by_band (w : World) (c : Calls) (h : nat) :
  let o := fst (mockPoint h w c) in
  (num "to_grid_mw" o > 0 <-> num "net_balance_mw" o > 5) /\
  (num "from_grid_mw" o > 0 <-> num "net_balance_mw" o < -5).
Proof.
  intros o. subst o. rewrite mock_to_grid, mock_from_grid. cbv zeta.
  set (netBalance := num "net_balance_mw" (fst (mockPoint h w c))).
  destruct (Rgt_dec netBalance 0); destruct (Rlt_dec netBalance 0);
    try lra; split; split; intros H; revert H; split_reals.
Qed.

(** X9.  On every mock record the grid wording of the panels follows the
    status: the data feed says exporting and the schematic EXPORT exactly
    for Surplus, importing and IMPORT exactly for Deficit, balanced and
    STANDBY exactly for Balanced. *)
Theorem mock_grid_wording_follows_status (w : World) (c : Calls) :
  Forall (fun o =>
            (DataFeed.gridText o = "Grid exporting" <-> status o = "Surplus") /\
            (DataFeed.gridText o = "Grid importing" <-> status o = "Deficit") /\
            (DataFeed.gridText o = "Grid balanced" <-> status o = "Balanced") /\
            (EnergyFlowSchematic.gridCaption o = "GRID EXPORT"
             <-> status o = "Surplus") /\
            (EnergyFlowSchematic.gridCaption o = "GRID IMPORT"
             <-> status o = "Deficit") /\
            (EnergyFlowSchematic.gridCaption o = "GRID STANDBY"
             <-> status o = "Balanced"))
         (fst (mockSimulationData w c)).
Proof.
  apply Array_from_aux_Forall. intros h c'.
  destruct (mock_grid_flows_by_band w c' h) as [Ht Hf].
  unfold DataFeed.gridText, EnergyFlowSchematic.gridCaption,
    EnergyFlowSchematic.isExporting, EnergyFlowSchematic.isImporting.
  rewrite mock_status. cbv zeta.
  set (o := fst (mockPoint h w c')) in *.
  set (netBalance := num "net_balance_mw" o) in *.
  destruct (Rgt_dec (num "to_grid_mw" o) 0) as [Hx | Hx];
    destruct (Rgt_dec (num "from_grid_mw" o) 0) as [Hy | Hy];
    destruct (Rgt_dec netBalance 5) as [Hs | Hs];
    destruct (Rlt_dec netBalance (-5)) as [Hd | Hd];
    try (exfalso; apply Ht in Hx; lra);
    try (exfalso; apply Hf in Hy; lra);
    try (exfalso; apply Hx; apply Ht; lra);
    try (exfalso; apply Hy; apply Hf; lra);
    try (exfalso; lra);
    simpl; repeat split; intros H; try reflexivity; discriminate H.
Qed.

(** X10.  On every mock record the NET BALANCE tile is green only when the
    status is Balanced, and a Balanced record misses the green exactly when
    its net balance is 5 MW or -5 MW: the tile uses a strict bound, the
    status does not. *)
Theorem mock_balanced_tile (w : World) (c : Calls) :
  Forall (fun o =>
            (MetricsGrid.netBalanceColor o = "success" -> status o = "Balanced") /\
            (status o = "Balanced" /\ MetricsGrid.netBalanceColor o <> "success"
             <-> Rabs (num "net_balance_mw" o) = 5))
         (fst (mockSimulationData w c)).
Proof.
  apply Array_from_aux_Forall. intros h c'.
  unfold MetricsGrid.netBalanceColor, MetricsGrid.isBalanced.
  rewrite mock_status. cbv zeta.
  set (netBalance := num "net_balance_mw" (fst (mockPoint h w c'))).
  unfold Rabs. destruct (Rcase_abs netBalance) as [Hneg | Hpos].
  - destruct (Rlt_dec (- netBalance) 5) as [Hb | Hb];
      destruct (Rgt_dec netBalance 5) as [Hs | Hs];
      destruct (Rlt_dec netBalance (-5)) as [Hd | Hd];
      destruct (Rgt_dec netBalance 0) as [Hp | Hp];
      try (exfalso; lra);
      (split;
       [ intros H; first [reflexivity | discriminate H]
       | split;
         [ intros [H1 H2];
           first [discriminate H1 | exfalso; apply H2; reflexivity | lra]
         | intros H;
           first [exfalso; lra | split; [reflexivity | discriminate]] ] ]).
  - destruct (Rlt_dec netBalance 5) as [Hb | Hb];
      destruct (Rgt_dec netBalance 5) as [Hs | Hs];
      destruct (Rlt_dec netBalance (-5)) as [Hd | Hd];
      destruct (Rgt_dec netBalance 0) as [Hp | Hp];
      try (exfalso; lra);
      (split;
       [ intros H; first [reflexivity | discriminate H]
       | split;
         [ intros [H1 H2];
           first [discriminate H1 | exfalso; apply H2; reflexivity | lra]
         | intros H;
           first [exfalso; lra | split; [reflexivity | discriminate]] ] ]).
Qed.

(** X11.  Under fair draws the schematic finds, in every mock record, an
    imbalance of ten times the third draw of the record: the stored supply
    and demand differ from the stored net balance by the jitter added to
    the demand alone.  The warning shows exactly when that draw exceeds
    one half. *)
Theorem mock_schematic_imbalance (w : World) (c : Calls) (k : nat) :
  fair w ->
  (k < 24)%nat ->
  exists o,
    nth_error (fst (mockSimulationData w c)) k = Some o /\
    EnergyFlowSchematic.imbalance o
    = 10 * random w (5 * k + random_calls c + 2) /\
    (EnergyFlowSchematic.hasImbalance o = true
     <-> random w (5 * k + random_calls c + 2) > 1 / 2).
Proof.
  intros Hw Hk. eexists.
  split; [apply mockSimulationData_nth; exact Hk |].
  rewrite after_points.
  set (c' := {| random_calls := 5 * k + random_calls c;
                now_calls := k + now_calls c |}).
  assert (Hi : EnergyFlowSchematic.imbalance (fst (mockPoint k w c'))
               = 10 * random w (5 * k + random_calls c + 2)).
  { unfold EnergyFlowSchematic.imbalance. cbv zeta.
    rewrite mock_supply, mock_demand, mock_net_balance.
    change (random_calls c') with (5 * k + random_calls c)%nat.
    replace (2 + (5 * k + random_calls c))%nat
      with (5 * k + random_calls c + 2)%nat by lia.
    pose proof (SIN_bound (INR k * PI / 12)).
    pose proof (Hw (5 * k + random_calls c)%nat).
    pose proof (Hw (5 * k + random_calls c + 2)%nat).
    pose proof (mockDemand_range k).
    rewrite !Rmax_right by lra.
    rewrite Rabs_left1 by lra. lra. }
  split; [exact Hi |].
  unfold EnergyFlowSchematic.hasImbalance. rewrite Hi.
  destruct (Rgt_dec (10 * random w (5 * k + random_calls c + 2)) 5);
    split; intros H; try reflexivity; try discriminate H; lra.
Qed.

Lemma mock_schematic_imbalance_witness :
  exists o,
    nth_error (fst (mockSimulationData calm start)) 3 = Some o /\
    EnergyFlowSchematic.imbalance o
    = 10 * random calm (5 * 3 + random_calls start + 2) /\
    (EnergyFlowSchematic.hasImbalance o = true
     <-> random calm (5 * 3 + random_calls start + 2) > 1 / 2).
Proof.
  apply (mock_schematic_imbalance calm start 3).
  - intros k. simpl. lra.
  - lia.
Defined.

(** X12.  The fill of the battery drawing always ends at the bottom of its
    frame, y = 121; for a percentage between 0 and 100 it stays inside the
    62 units of the frame, and every mock record has such a percentage. *)
Theorem schematic_battery_fill (w : World) (c : Calls) (data : Object) :
  EnergyFlowSchematic.batteryFillY data
  + EnergyFlowSchematic.batteryFillHeight data = 121 /\
  (0 <= num "battery_percent" data <= 100 ->
   59 <= EnergyFlowSchematic.batteryFillY data <= 121 /\
   0 <= EnergyFlowSchematic.batteryFillHeight data <= 62) /\
  Forall (fun o => 10 <= num "battery_percent" o <= 95)
         (fst (mockSimulationData w c)).
Proof.
  unfold EnergyFlowSchematic.batteryFillY,
    EnergyFlowSchematic.batteryFillHeight. cbv zeta.
  split; [lra |]. split; [intros H; lra |].
  apply Array_from_aux_Forall. intros h c'.
  rewrite mock_battery_percent. split_reals.
Qed.

(** The last record of a buffer that is not empty. *)
Lemma latestData_last (l : list Object) (x : Object) :
  Page.latestData (List.app l [x]) = Some x.
Proof.
  unfold Page.latestData. rewrite length_app. simpl List.length.
  replace (0 <? List.length l + 1)%nat with true
    by (symmetry; apply Nat.ltb_lt; lia).
  replace (List.length l + 1 - 1)%nat with (List.length l) by lia.
  rewrite nth_error_app2 by lia.
  rewrite Nat.sub_diag. reflexivity.
Qed.

(** X13.  The health strip never shows grid stability in red: it is green
    when there is no record or the latest net balance is within 10 MW, and
    amber otherwise.  Network and ML confidence are always green. *)
Theorem health_strip_grid_stability (simulationData : list Object) :
  let strip := SystemHealth.ofPage simulationData in
  (SystemHealth.colorOf "Grid Stability" strip = Some "success" <->
     match Page.latestData simulationData with
     | Some d => Rabs (num "net_balance_mw" d) < 10
     | None => True
     end) /\
  (SystemHealth.colorOf "Grid Stability" strip = Some "warning" <->
     match Page.latestData simulationData with
     | Some d => 10 <= Rabs (num "net_balance_mw" d)
     | None => False
     end) /\
  SystemHealth.colorOf "Network" strip = Some "success" /\
  SystemHealth.colorOf "ML Confidence" strip = Some "success".
Proof.
  intros strip. subst strip.
  unfold SystemHealth.ofPage, SystemHealth.metrics, SystemHealth.colorOf.
  simpl find.
  cbn [SystemHealth.color].
  destruct (Rgt_dec 100 90) as [_ | H]; [| lra].
  destruct (Rgt_dec 92 90) as [_ | H]; [| lra].
  unfold Page.gridStability.
  destruct (Page.latestData simulationData) as [d |].
  - destruct (Rlt_dec (Rabs (num "net_balance_mw" d)) 10) as [Hn | Hn].
    + destruct (Rgt_dec 95 90) as [_ | H]; [| lra].
      repeat split; intros; try reflexivity; try assumption;
        try discriminate; lra.
    + destruct (Rgt_dec 75 90) as [H | _]; [lra |].
      destruct (Rgt_dec 75 70) as [_ | H]; [| lra].
      repeat split; intros; try reflexivity; try discriminate; lra.
  - destruct (Rgt_dec 95 90) as [_ | H]; [| lra].
    repeat split; intros; try reflexivity; try discriminate; try exact I;
      contradiction.
Qed.

Lemma health_strip_battery (simulationData : list Object) :
  SystemHealth.colorOf "Battery Health" (SystemHealth.ofPage simulationData)
  = Some (if Rgt_dec (Page.batteryHealth (Page.latestData simulationData)) 90
          then "success"
          else if Rgt_dec (Page.batteryHealth (Page.latestData simulationData)) 70
          then "warning"
          else "destructive").
Proof. reflexivity. Qed.

(** X14.  Under fair draws the mock data puts Battery Health in red: the
    latest record has a battery percentage below 60, under the 70 that
    amber needs; and the battery bar of the metrics grid is never high. *)
Theorem mock_battery_health_red (w : World) (c : Calls) :
  fair w ->
  SystemHealth.colorOf "Battery Health"
    (SystemHealth.ofPage (fst (mockSimulationData w c)))
  = Some "destructive" /\
  Forall (fun o => MetricsGrid.batteryStatus o <> "high")
         (fst (mockSimulationData w c)).
Proof.
  intros Hw.
  pose proof (mock_battery_percent_bound w c Hw) as Hall.
  pose proof (mockSimulationData_length w c) as Hlen.
  rewrite health_strip_battery.
  set (records := fst (mockSimulationData w c)) in *.
  clearbody records.
  split.
  - unfold Page.batteryHealth, Page.latestData.
    rewrite Hlen.
    change (0 <? 24)%nat with true. cbv iota.
    change (24 - 1)%nat with 23%nat.
    destruct (nth_error records 23) as [o |] eqn:Ho.
    + apply nth_error_In in Ho.
      rewrite Forall_forall in Hall. specialize (Hall o Ho).
      destruct (Rgt_dec (num "battery_percent" o) 90); [lra |].
      destruct (Rgt_dec (num "battery_percent" o) 70); [lra |].
      reflexivity.
    + apply nth_error_None in Ho. rewrite Hlen in Ho. lia.
  - eapply Forall_impl; [| exact Hall].
    intros o Ho. unfold MetricsGrid.batteryStatus.
    destruct (Rgt_dec (num "battery_percent" o) 80); [lra |].
    destruct (Rgt_dec (num "battery_percent" o) 30); discriminate.
Qed.

Lemma mock_battery_health_red_witness :
  SystemHealth.colorOf "Battery Health"
    (SystemHealth.ofPage (fst (mockSimulationData calm start)))
  = Some "destructive" /\
  Forall (fun o => MetricsGrid.batteryStatus o <> "high")
         (fst (mockSimulationData calm start)).
Proof.
  apply (mock_battery_health_red calm start).
  intros k. simpl. lra.
Defined.

End PanelProofs.

(** ** The page state under replies *)

Section PageProofs.

Import Js Index Page.

(** [slice(0, n)] is the first n elements, or all of a shorter array. *)
Lemma slice_range_prefix {A : Type} (n : nat) (l : list A) :
  slice_range 0 (Z.of_nat n) l = firstn n l.
Proof.
  unfold slice_range. change (0 <? 0)%Z with false. cbv iota.
  destruct (Z.ltb_spec (Z.of_nat n) 0) as [H | _]; [lia |].
  replace (Z.to_nat (Z.min 0 (Z.of_nat (List.length l)))) with 0%nat by lia.
  simpl skipn.
  replace (Z.to_nat (Z.max (Z.min (Z.of_nat n) (Z.of_nat (List.length l))
                            - Z.min 0 (Z.of_nat (List.length l))) 0))
    with (Nat.min n (List.length l)) by lia.
  destruct (Nat.le_ge_cases n (List.length l)) as [H | H].
  - now rewrite Nat.min_l.
  - rewrite Nat.min_r by assumption. now rewrite !firstn_all2 by lia.
Qed.

(** X15.  A LIVE alert update puts the new alerts first and keeps the
    first nine of the previous ones: the list has as many entries as the
    reply brought plus at most nine, so it stays within ten only when the
    reply brings one alert. *)
Theorem alertsUpdate_length {A : Type} (newAlerts prev : list A) :
  alertsUpdate newAlerts prev = List.app newAlerts (firstn 9 prev) /\
  List.length (alertsUpdate newAlerts prev)
  = (List.length newAlerts + Nat.min 9 (List.length prev))%nat /\
  ((List.length (alertsUpdate newAlerts prev) <= 10)%nat <->
   (List.length newAlerts <= 1)%nat \/
   (List.length newAlerts + List.length prev <= 10)%nat).
Proof.
  assert (E : alertsUpdate newAlerts prev = List.app newAlerts (firstn 9 prev)).
  { unfold alertsUpdate. change 9%Z with (Z.of_nat 9).
    now rewrite slice_range_prefix. }
  split; [exact E |].
  rewrite E, length_app, length_firstn. lia.
Qed.

(** X16.  After any run of LIVE updates that is not empty the buffer holds
    the previous length plus the number of updates, capped at 24, and the
    record the panels show is the one appended last. *)
Theorem live_updates_settle (xs prev : list Object) (d : Object) :
  xs <> [] ->
  let buffer := fold_left (fun buf x => liveUpdate x buf) xs prev in
  List.length buffer = Nat.min (List.length prev + List.length xs) 24 /\
  latestData buffer = Some (List.last xs d).
Proof.
  revert prev. induction xs as [| x xs IH]; intros prev Hne; [contradiction |].
  destruct xs as [| y ys].
  - simpl. split.
    + rewrite liveUpdate_length. lia.
    + unfold liveUpdate. apply latestData_last.
  - specialize (IH (liveUpdate x prev) ltac:(discriminate)).
    cbv zeta in IH. destruct IH as [IHl IHd].
    change (fold_left (fun buf x0 => liveUpdate x0 buf) (x :: y :: ys) prev)
      with (fold_left (fun buf x0 => liveUpdate x0 buf) (y :: ys)
              (liveUpdate x prev)).
    split.
    + rewrite IHl, liveUpdate_length. simpl List.length. lia.
    + rewrite IHd. reflexivity.
Qed.

Lemma live_updates_settle_witness :
  let buffer := fold_left (fun buf x => liveUpdate x buf)
                  [ [("hour", Num 1)]; [("hour", Num 2)] ] [] in
  List.length buffer = Nat.min (0 + 2) 24 /\
  latestData buffer = Some (List.last [ [("hour", Num 1)]; [("hour", Num 2)] ] []).
Proof.
  apply (live_updates_settle [ [("hour", Num 1)]; [("hour", Num 2)] ] [] []).
  discriminate.
Defined.

(** One reply handled in LIVE mode by a closure that has seen data. *)
Lemma handleResponse_live_step (seen : list Object)
    (data : SimulationResponse) (st : Shown) :
  seen <> [] ->
  let st' := handleResponse LIVE seen data st in
  maintenanceWindows st' = maintenanceWindows st /\
  summary st' = summary st /\
  (List.length (simulationData st')
   <= Nat.max 24 (List.length (simulationData st)))%nat /\
  liveUpdateCount st'
  = (liveUpdateCount st
     + match simulation_data data with Some (_ :: _) => 1 | _ => 0 end)%nat.
Proof.
  intros Hseen st'. subst st'. unfold handleResponse.
  destruct seen as [| s0 seen']; [contradiction |].
  destruct (simulation_data data) as [[| d ds] |];
    try (repeat split; try reflexivity; lia).
  change (Mode_eqb LIVE LIVE && (0 <? List.length (s0 :: seen'))%nat)
    with true. cbv iota.
  cbn [maintenanceWindows summary simulationData liveUpdateCount].
  repeat split; try reflexivity.
  rewrite liveUpdate_length. lia.
Qed.

(** X17.  However many replies a LIVE closure that has seen data handles,
    the maintenance windows and the summary stay as they were, the buffer
    never grows beyond 24 records (or beyond what it held), and the update
    count rises by the number of replies that carried data. *)
Theorem live_replies_invariant (seen : list Object)
    (replies : list SimulationResponse) (st : Shown) :
  seen <> [] ->
  let st' := fold_left (fun s data => handleResponse LIVE seen data s)
                       replies st in
  maintenanceWindows st' = maintenanceWindows st /\
  summary st' = summary st /\
  (List.length (simulationData st')
   <= Nat.max 24 (List.length (simulationData st)))%nat /\
  liveUpdateCount st'
  = (liveUpdateCount st
     + List.length
         (filter (fun data => match simulation_data data with
                              | Some (_ :: _) => true
                              | _ => false
                              end) replies))%nat.
Proof.
  intros Hseen. revert st.
  induction replies as [| data replies IH]; intros st; cbv zeta.
  - cbn [fold_left filter List.length].
    repeat split; try reflexivity; lia.
  - simpl fold_left.
    specialize (IH (handleResponse LIVE seen data st)). cbv zeta in IH.
    destruct IH as (Hm & Hs & Hl & Hc).
    destruct (handleResponse_live_step seen data st Hseen)
      as (Hm1 & Hs1 & Hl1 & Hc1).
    rewrite Hm, Hs, Hc, Hm1, Hs1, Hc1.
    split; [reflexivity |]. split; [reflexivity |]. split; [lia |].
    simpl filter.
    destruct (simulation_data data) as [[| d ds] |]; simpl List.length; lia.
Qed.

Lemma live_replies_invariant_witness :
  let st := {| simulationData := [ [("hour", Num 0)] ]; alerts := [];
               maintenanceWindows := []; summary := None;
               liveUpdateCount := 0 |} in
  let replies := [ {| simulation_data := Some [ [("hour", Num 1)] ];
                      response_alerts := None; maintenance_windows := None;
                      response_summary := None |} ] in
  let st' := fold_left (fun s data =>
                          handleResponse LIVE [ [("hour", Num 0)] ] data s)
                       replies st in
  maintenanceWindows st' = maintenanceWindows st /\
  summary st' = summary st /\
  (List.length (simulationData st')
   <= Nat.max 24 (List.length (simulationData st)))%nat /\
  liveUpdateCount st'
  = (liveUpdateCount st
     + List.length
         (filter (fun data => match simulation_data data with
                              | Some (_ :: _) => true
                              | _ => false
                              end) replies))%nat.
Proof.
  intros st replies.
  apply (live_replies_invariant [ [("hour", Num 0)] ] replies st).
  discriminate.
Defined.

End PageProofs.

(** ** The header and the alerts panel *)

Section HeaderProofs.

Import DashboardHeader.

(** X18.  The icon drawn for an alert names the group it is listed in: the
    circle for the critical group, the triangle for the warning group, the
    info sign for the info group, whatever the level string. *)
Theorem alert_icon_matches_group (alerts : list Alert) (a : Alert) :
  In a alerts ->
  (getAlertIcon (level a) = AlertCircle <-> In a (criticalAlerts alerts)) /\
  (getAlertIcon (level a) = AlertTriangle <-> In a (warningAlerts alerts)) /\
  (getAlertIcon (level a) = Info <-> In a (infoAlerts alerts)).
Proof.
  intros Ha.
  unfold criticalAlerts, warningAlerts, infoAlerts, getAlertIcon.
  rewrite !filter_In.
  destruct (level_cases (level a))
    as [(H1 & H2 & H3) | [(H1 & H2 & H3) | (H1 & H2 & H3)]];
    rewrite H1, H2, H3 || (rewrite H1; rewrite H2; rewrite H3);
    repeat split; intros; try assumption; try reflexivity;
    try discriminate;
    match goal with
    | H : _ /\ false = true |- _ => destruct H; discriminate
    end.
Qed.

Lemma alert_icon_matches_group_witness :
  let a := {| level := "notice"; message := "m"; timestamp := "t" |} in
  (getAlertIcon (level a) = AlertCircle <-> In a (criticalAlerts [a])) /\
  (getAlertIcon (level a) = AlertTriangle <-> In a (warningAlerts [a])) /\
  (getAlertIcon (level a) = Info <-> In a (infoAlerts [a])).
Proof.
  intros a. apply (alert_icon_matches_group [a] a). left. reflexivity.
Defined.

Lemma existsb_filter_nil {A : Type} (f : A -> bool) (l : list A) :
  existsb f l = false <-> filter f l = [].
Proof.
  induction l as [| x l IH]; simpl; [tauto |].
  destruct (f x); simpl; [split; discriminate | exact IH].
Qed.

(** X19.  The dot of the alerts panel follows the groups of the header: it
    is red exactly when the critical group is not empty, amber exactly when
    the critical group is empty and the warning group is not, and green
    exactly when both are empty. *)
Theorem alert_indicator_matches_groups (alerts : list Alert) :
  (Page.alertIndicator alerts = "bg-destructive animate-pulse"
   <-> criticalAlerts alerts <> []) /\
  (Page.alertIndicator alerts = "bg-warning"
   <-> criticalAlerts alerts = [] /\ warningAlerts alerts <> []) /\
  (Page.alertIndicator alerts = "bg-success"
   <-> criticalAlerts alerts = [] /\ warningAlerts alerts = []).
Proof.
  unfold Page.alertIndicator, criticalAlerts, warningAlerts.
  pose proof (existsb_filter_nil
                (fun a => String.eqb (level a) "critical") alerts) as Hc.
  pose proof (existsb_filter_nil
                (fun a => String.eqb (level a) "warning") alerts) as Hw.
  destruct (existsb (fun a => String.eqb (level a) "critical") alerts).
  - assert (Hn : filter (fun a => String.eqb (level a) "critical") alerts <> [])
      by (intros E; apply Hc in E; discriminate).
    repeat split; intros; try assumption; try discriminate;
      match goal with
      | H : _ /\ _ |- _ => destruct H; contradiction
      end.
  - assert (Hn : filter (fun a => String.eqb (level a) "critical") alerts = [])
      by (apply Hc; reflexivity).
    destruct (existsb (fun a => String.eqb (level a) "warning") alerts).
    + assert (Hm : filter (fun a => String.eqb (level a) "warning") alerts <> [])
        by (intros E; apply Hw in E; discriminate).
      repeat split; intros; try assumption; try reflexivity;
        try discriminate; try contradiction;
        match goal with
        | H : _ /\ _ |- _ => destruct H; contradiction
        end.
    + assert (Hm : filter (fun a => String.eqb (level a) "warning") alerts = [])
        by (apply Hw; reflexivity).
      repeat split; intros; try assumption; try reflexivity;
        try discriminate; try contradiction;
        match goal with
        | H : _ /\ _ |- _ => destruct H; contradiction
        end.
Qed.

(** Replacing the first T of a string whose head holds none. *)
Lemma replace_char_after (a b : string) :
  (forall c, In c (list_ascii_of_string a) -> c <> "T"%char) ->
  Js.replace_char "T" " " (String.append a (String "T" b))
  = String.append a (String " " b).
Proof.
  induction a as [| c a IH]; intros Hno; simpl.
  - reflexivity.
  - destruct (Ascii.eqb_spec c "T"%char) as [E | _].
    + exfalso. apply (Hno c); [left; reflexivity | exact E].
    + f_equal. apply IH. intros c' Hc'. apply Hno. right. exact Hc'.
Qed.

Lemma substring_prefix (a b : string) :
  String.substring 0 (String.length a) (String.append a b) = a.
Proof.
  induction a as [| c a IH]; simpl.
  - destruct b; reflexivity.
  - now rewrite IH.
Qed.

Lemma string_append_assoc (a b c : string) :
  String.append a (String.append b c) = String.append (String.append a b) c.
Proof.
  induction a as [| x a IH]; simpl; [reflexivity | now rewrite IH].
Qed.

Lemma string_length_append (a b : string) :
  String.length (String.append a b) = (String.length a + String.length b)%nat.
Proof.
  induction a as [| x a IH]; simpl; [reflexivity | now rewrite IH].
Qed.

(** X20.  On a timestamp of the ISO shape, a date of ten characters, a T,
    a time of eight characters and a rest, [formatUTC] gives the date, a
    blank, the time and the suffix UTC: the fraction and the Z are cut. *)
Theorem formatUTC_iso (date time rest : string) :
  String.length date = 10%nat ->
  String.length time = 8%nat ->
  (forall c, In c (list_ascii_of_string date) -> c <> "T"%char) ->
  formatUTC (String.append date (String "T" (String.append time rest)))
  = String.append date (String " " (String.append time " UTC")).
Proof.
  intros Hd Ht Hno. unfold formatUTC.
  rewrite replace_char_after by assumption.
  change (String " " (String.append time rest))
    with (String.append (String " " time) rest).
  change (String " " (String.append time " UTC"))
    with (String.append (String " " time) " UTC").
  rewrite !string_append_assoc.
  assert (L : String.length (String.append date (String " " time)) = 19%nat).
  { rewrite string_length_append. simpl. lia. }
  rewrite <- L. rewrite substring_prefix. reflexivity.
Qed.

Lemma formatUTC_iso_witness :
  formatUTC (String.append "2025-12-14"
               (String "T" (String.append "10:00:00" ".000Z")))
  = String.append "2025-12-14" (String " " (String.append "10:00:00" " UTC")).
Proof.
  apply (formatUTC_iso "2025-12-14" "10:00:00" ".000Z").
  - reflexivity.
  - reflexivity.
  - intros c Hc. simpl in Hc.
    repeat (destruct Hc as [<- | Hc]; [discriminate |]). contradiction.
Defined.

End HeaderProofs.

(** ** The simulation request: battery and date range *)

Section RequestLimits.

Import Js Index.

(** X21.  For a battery capacity that is not negative the request keeps
    0 <= initial_battery_mwh <= battery_capacity_mwh.  Without the battery
    fault the battery starts half full; with it the capacity sent is halved
    and the initial charge is not, so the battery starts full, above the
    high threshold of 0.8 that the same request carries. *)
Theorem requestBody_initial_charge (s : State) :
  0 <= batteryCapacity s ->
  let body := requestBody s in
  0 <= num "initial_battery_mwh" body <= num "battery_capacity_mwh" body /\
  (batteryFault (faults s) = false ->
   num "initial_battery_mwh" body = num "battery_capacity_mwh" body / 2) /\
  (batteryFault (faults s) = true ->
   num "initial_battery_mwh" body = num "battery_capacity_mwh" body /\
   num "battery_high_threshold" body * num "battery_capacity_mwh" body
   <= num "initial_battery_mwh" body).
Proof.
  intros Hcap body. subst body.
  change (num "initial_battery_mwh" (requestBody s))
    with (batteryCapacity s / 2).
  change (num "battery_high_threshold" (requestBody s)) with 0.8.
  rewrite requestBody_battery_capacity.
  destruct (batteryFault (faults s)).
  - repeat split; intros; try discriminate; lra.
  - repeat split; intros; try discriminate; lra.
Qed.

Lemma requestBody_initial_charge_witness :
  let body := requestBody initialState in
  0 <= num "initial_battery_mwh" body <= num "battery_capacity_mwh" body /\
  (batteryFault (faults initialState) = false ->
   num "initial_battery_mwh" body = num "battery_capacity_mwh" body / 2) /\
  (batteryFault (faults initialState) = true ->
   num "initial_battery_mwh" body = num "battery_capacity_mwh" body /\
   num "battery_high_threshold" body * num "battery_capacity_mwh" body
   <= num "initial_battery_mwh" body).
Proof.
  apply (requestBody_initial_charge initialState). simpl. lra.
Defined.

(** X22.  The request carries a date range exactly in CUSTOM mode with both
    dates chosen, and then it holds the two chosen instants; a request that
    asks for live data never carries one. *)
Theorem requestBody_date_range (s : State) :
  (get "date_range" (requestBody s) <> None <->
   mode s = CUSTOM /\ from (dateRange s) <> None /\ to (dateRange s) <> None) /\
  (forall f t,
     mode s = CUSTOM -> from (dateRange s) = Some f -> to (dateRange s) = Some t ->
     get "date_range" (requestBody s)
     = Some (Obj [ ("from", Iso f); ("to", Iso t) ])) /\
  (get "use_live_data" (requestBody s) = Some (Bool true) ->
   get "date_range" (requestBody s) = None).
Proof.
  unfold requestBody.
  destruct (mode s) eqn:Hm, (from (dateRange s)) as [f |] eqn:Hf,
    (to (dateRange s)) as [t |] eqn:Ht;
    (split; [split; [intros H; try (exfalso; apply H; reflexivity);
                     repeat split; try reflexivity; discriminate
                    | intros (H1 & H2 & H3); try discriminate H1;
                      try (exfalso; apply H2; reflexivity);
                      try (exfalso; apply H3; reflexivity);
                      discriminate ]
           | split; [intros f' t' H1 H2 H3; try discriminate H1;
                     try discriminate H2; try discriminate H3;
                     injection H2 as <-; injection H3 as <-; reflexivity
                    | intros H; try reflexivity; discriminate H ] ]).
Qed.

End RequestLimits.
